(** * RFDesign, tutorials/halluc_PD-L1_binder: the design-campaign notebook

    A shallow embedding of the code cells of
    [tutorials/halluc_PD-L1_binder/halluc_PD-L1_binder.ipynb]:

    - the run-1 command generation loop (the "Job Spec Builder"),
    - the boolean-mask filter that picks the hits (the "Hit Selector"),
    - the loop copying the artifacts of the hits (the "Artifact Promoter"),
    - the run-2 command generation loop (the "Generation Propagator").

    Python values are modelled as follows.  Python [int]s are [Z]; [str]s
    are [string]; a float64 cell of the metrics table is a [float64] (a
    rational, an infinity or NaN); a raised exception is the [Raise] case of
    [result]; the file system is a finite map from (normalised) paths to
    artifacts; what [print] writes is a list of lines. *)

From Stdlib Require Import ZArith QArith DecimalString Ascii String.
From Stdlib Require Import DecimalFacts DecimalZ Permutation.
From stdpp Require Import gmap strings list.

Local Open Scope Z_scope.

(** ** Python exceptions and results *)

(** The exceptions the notebook's cells can raise.  [LoadError] stands for
    what [np.load] raises on a file it cannot read as a pickle (an
    [OSError] or an [UnpicklingError], depending on the numpy release). *)
Inductive exn : Type :=
| ZeroDivisionError
| IndexError
| KeyError (key : string)
| FileNotFoundError (path : string)
| SameFileError (path : string)
| LoadError (path : string).

Inductive result (A : Type) : Type :=
| Ok (a : A)
| Raise (e : exn).
Arguments Ok {A} a.
Arguments Raise {A} e.

Definition bind {A B} (r : result A) (k : A -> result B) : result B :=
  match r with
  | Ok a => k a
  | Raise e => Raise e
  end.

Declare Scope py_scope.
Delimit Scope py_scope with py.
Notation "x <- r ;; k" := (bind r (fun x => k))
  (at level 100, r at next level, right associativity) : py_scope.
Local Open Scope py_scope.

Definition raises {A} (r : result A) : bool :=
  match r with Ok _ => false | Raise _ => true end.

(** ** Strings *)

(** [str(n)] / [f'{n}'] for an integer. *)
Definition str_of_int (n : Z) : string := NilZero.string_of_int (Z.to_int n).

(** [s.split(sep)] for a one-character separator: the first piece and the
    list of the remaining ones (Python always returns at least one piece). *)
Fixpoint split_on (sep : ascii) (s : string) : string * list string :=
  match s with
  | EmptyString => (EmptyString, [])
  | String c s' =>
      let '(x, xs) := split_on sep s' in
      if Ascii.eqb c sep then (EmptyString, x :: xs) else (String c x, xs)
  end.

Definition str_split (s : string) (sep : ascii) : list string :=
  let '(x, xs) := split_on sep s in x :: xs.

(** [sep.join(l)]. *)
Fixpoint str_join (sep : string) (l : list string) : string :=
  match l with
  | [] => ""
  | [x] => x
  | x :: xs => x +:+ sep +:+ str_join sep xs
  end.

(** [x[0]]: the first character, [IndexError] on the empty string. *)
Definition str_getitem0 (x : string) : result ascii :=
  match x with
  | EmptyString => Raise IndexError
  | String c _ => Ok c
  end.

(** [s.replace(old, new)] for a non-empty [old]: every non-overlapping
    occurrence, scanning from the left.  [skip] counts the characters of an
    occurrence already replaced that are still to be dropped. *)
Fixpoint replace_from (old new : string) (skip : nat) (s : string) : string :=
  match s with
  | EmptyString => EmptyString
  | String c s' =>
      match skip with
      | S k => replace_from old new k s'
      | O =>
          if String.prefix old s
          then new +:+ replace_from old new (Nat.pred (String.length old)) s'
          else String c (replace_from old new O s')
      end
  end.

Definition str_replace (s old new : string) : string := replace_from old new O s.

(** [os.path.basename(p)]: what follows the last slash. *)
Definition basename (p : string) : string :=
  List.last (str_split p "/"%char) EmptyString.

(** ** numpy *)

(** [np.arange(start, stop, step)] on integers: [ceil((stop-start)/step)]
    values [start + k*step] (none when that number is not positive); a zero
    step divides by zero.  numpy takes the length from the float64 quotient
    and holds the values in int64: this is the list it builds when the
    arguments are integers that a float64 holds exactly ([float_exact]
    below), and the statements about which values the list has carry that
    bound. *)
Definition arange_len (start stop step : Z) : Z :=
  Z.max 0 (- ((start - stop) / step)).

Definition np_arange (start stop step : Z) : result (list Z) :=
  if step =? 0 then Raise ZeroDivisionError
  else Ok (List.map (fun k : nat => start + Z.of_nat k * step)
             (List.seq 0 (Z.to_nat (arange_len start stop step)))).

(** The integers that a float64 holds exactly. *)
Definition float_exact (n : Z) : Prop := - 2 ^ 53 < n < 2 ^ 53.

(** ** Run 1: the Job Spec Builder *)

Module Run1.

(** The variables the run-1 cell sets before its loop. *)
Record intent : Type := {
  total_num : Z;
  batch : Z;
  ref_pdb : string;
  mask : string;
  run_name : string;
  outdir : string
}.

(** What one iteration of the run-1 loop interpolates into its command. *)
Record job_spec : Type := {
  js_pdb : string;
  js_out : string;
  js_mask : string;
  js_num : Z;
  js_start_num : Z;
  js_log : string
}.

(** The f-string of the run-1 loop. *)
Definition cmd1 (j : job_spec) : string :=
  "source activate SE3; python ../../hallucination/hallucinate.py --pdb="
  +:+ js_pdb j +:+ " --out=" +:+ js_out j +:+ " "
  +:+ "--mask=" +:+ js_mask j +:+ " --steps=g600 --num=" +:+ str_of_int (js_num j)
  +:+ " --start_num=" +:+ str_of_int (js_start_num j) +:+ " "
  +:+ "--w_rog=1 --rog_thresh=16 --w_rep 2 --rep_pdb input/pdl1.pdb --rep_sigma 4 "
  +:+ "--save_pdb=True --track_step 10 "
  +:+ "&>> " +:+ js_log j.

Definition spec1 (i : intent) (istart : Z) : job_spec :=
  {| js_pdb := ref_pdb i;
     js_out := outdir i +:+ run_name i;
     js_mask := mask i;
     js_num := batch i;
     js_start_num := istart;
     js_log := outdir i +:+ run_name i +:+ "_" +:+ str_of_int istart +:+ ".log" |}.

(** [for istart in np.arange(0, total_num, batch): ...]: the specs in the
    order of the loop, and the lines the cell prints. *)
Definition run1_specs (i : intent) : result (list job_spec) :=
  istarts <- np_arange 0 (total_num i) (batch i) ;;
  Ok (List.map (spec1 i) istarts).

Definition run1 (i : intent) : result (list string) :=
  specs <- run1_specs i ;;
  Ok (List.map cmd1 specs).


(** The intent of the notebook's run-1 cell. *)
Definition tutorial_intent : intent :=
  {| total_num := 20; batch := 5;
     ref_pdb := "input/pd1.pdb";
     mask := "25-35,A63-82,15-25,A119-140,0-15";
     run_name := "pd1_r1";
     outdir := "output/run1/" |}.

(** The specs of the loop in closed form: one per [k < arange_len],
    starting at [k * batch] (see [run1_specs_eq]). *)
Definition spec_list (i : intent) : list job_spec :=
  List.map (fun k : nat => spec1 i (Z.of_nat k * batch i))
    (List.seq 0 (Z.to_nat (arange_len 0 (total_num i) (batch i)))).

End Run1.

(** ** The metrics table *)

(** A float64 cell.  A finite double is represented by the rational it
    denotes, so the comparisons below are the comparisons of doubles; a
    missing value is NaN. *)
Inductive float64 : Type :=
| Finite (q : Q)
| PInf
| NInf
| NaN.

Definition Qltb (a b : Q) : bool := (Qnum a * QDen b <? Qnum b * QDen a)%Z.

(** [x > t] and [x < t] for a cell [x] and a Python number [t]: every
    comparison with NaN is False. *)
Definition float_gt (x : float64) (t : Q) : bool :=
  match x with
  | Finite q => Qltb t q
  | PInf => true
  | NInf => false
  | NaN => false
  end.

Definition float_lt (x : float64) (t : Q) : bool :=
  match x with
  | Finite q => Qltb q t
  | PInf => false
  | NInf => true
  | NaN => false
  end.

(** One row of the table: its index label, the text columns the notebook
    reads ([name], [folder]) and the numeric columns by name.  A numeric
    column of the table with no entry in [metrics] holds NaN in that row. *)
Record row : Type := {
  index : Z;
  name : string;
  folder : string;
  metrics : gmap string float64
}.

Record DataFrame : Type := {
  columns : list string;
  rows : list row
}.

Definition cell (r : row) (c : string) : float64 :=
  default NaN (metrics r !! c).

(** [df[c]] for a numeric column: the Series of its cells, [KeyError] when
    the table has no such column. *)
Definition getitem_col (df : DataFrame) (c : string) : result (list float64) :=
  if decide (c ∈ columns df)
  then Ok (List.map (fun r => cell r c) (rows df))
  else Raise (KeyError c).

(** [s > t], [s < t] on a Series, and [a & b] on two boolean Series of the
    same table. *)
Definition series_gt (s : list float64) (t : Q) : list bool :=
  List.map (fun x => float_gt x t) s.

Definition series_lt (s : list float64) (t : Q) : list bool :=
  List.map (fun x => float_lt x t) s.

Definition mask_and (a b : list bool) : list bool := zip_with andb a b.

(** [df[m]] for a boolean Series [m]: the rows where [m] is True, in the
    order of the table. *)
Definition getitem_mask (df : DataFrame) (m : list bool) : DataFrame :=
  {| columns := columns df;
     rows := List.map fst (List.filter snd (zip (rows df) m)) |}.

(** ** The Hit Selector *)

(** [hits = df[(df['af2_lddt']>60) & (df['contig_rmsd_af2']<1.5) & (df['rog']<16)]] *)
Definition hits (df : DataFrame) : result DataFrame :=
  lddt <- getitem_col df "af2_lddt" ;;
  rmsd <- getitem_col df "contig_rmsd_af2" ;;
  rog <- getitem_col df "rog" ;;
  Ok (getitem_mask df
        (mask_and (mask_and (series_gt lddt 60) (series_lt rmsd (3 # 2)))
                  (series_lt rog 16))).

(** The same expression with the columns, comparisons and thresholds as
    parameters: a conjunction [(p1) & (p2) & ... & (pn)] of comparisons. *)
Inductive cmp : Type := GT | LT.

Record predicate : Type := {
  p_col : string;
  p_cmp : cmp;
  p_thr : Q
}.

Definition series_cmp (o : cmp) (s : list float64) (t : Q) : list bool :=
  match o with
  | GT => series_gt s t
  | LT => series_lt s t
  end.

Definition pred_mask (df : DataFrame) (p : predicate) : result (list bool) :=
  s <- getitem_col df (p_col p) ;;
  Ok (series_cmp (p_cmp p) s (p_thr p)).

Fixpoint and_masks (df : DataFrame) (acc : list bool) (ps : list predicate)
  : result (list bool) :=
  match ps with
  | [] => Ok acc
  | p :: ps' =>
      m <- pred_mask df p ;;
      and_masks df (mask_and acc m) ps'
  end.

Definition hit_selector (ps : list predicate) (df : DataFrame) : result DataFrame :=
  match ps with
  | [] => Ok df
  | p :: ps' =>
      m <- pred_mask df p ;;
      m' <- and_masks df m ps' ;;
      Ok (getitem_mask df m')
  end.

Definition tutorial_predicates : list predicate :=
  [ {| p_col := "af2_lddt"; p_cmp := GT; p_thr := 60 |};
    {| p_col := "contig_rmsd_af2"; p_cmp := LT; p_thr := 3 # 2 |};
    {| p_col := "rog"; p_cmp := LT; p_thr := 16 |} ].

(** What it means for a row to pass a comparison, and all of them. *)
Definition float_cmp (o : cmp) (x : float64) (t : Q) : bool :=
  match o with
  | GT => float_gt x t
  | LT => float_lt x t
  end.

Definition satisfies (r : row) (p : predicate) : bool :=
  float_cmp (p_cmp p) (cell r (p_col p)) (p_thr p).

Definition satisfies_all (ps : list predicate) (r : row) : bool :=
  forallb (satisfies r) ps.

(** A threshold [t'] is looser than [t]: lower for [>], higher for [<]. *)
Definition looser (o : cmp) (t t' : Q) : Prop :=
  match o with
  | GT => (t' <= t)%Q
  | LT => (t <= t')%Q
  end.

(** ** The artifact store *)

(** A file: plain content, or a pickled run-metadata dictionary (a [.trb]),
    of which only the text-valued fields are kept. *)
Inductive artifact : Type :=
| Data (content : string)
| Trb (fields : gmap string string).

(** The file a path names: empty and [.] components are dropped and a
    component followed by [..] is cancelled (directories are taken to exist
    and not to be symbolic links). *)
Fixpoint norm_components (absolute : bool) (stack : list string) (l : list string)
  : list string :=
  match l with
  | [] => List.rev stack
  | c :: l' =>
      if decide (c = "" ∨ c = ".") then norm_components absolute stack l'
      else if decide (c = "..") then
        match stack with
        | s :: st =>
            if decide (s = "..") then norm_components absolute (c :: stack) l'
            else norm_components absolute st l'
        | [] =>
            if absolute then norm_components absolute [] l'
            else norm_components absolute [c] l'
        end
      else norm_components absolute (c :: stack) l'
  end.

Definition normpath (p : string) : string :=
  let absolute := String.prefix "/" p in
  (if absolute then "/" else "")
  +:+ str_join "/" (norm_components absolute [] (str_split p "/"%char)).

(** The state the cells act on: the files, and what has been printed. *)
Record world : Type := {
  files : gmap string artifact;
  stdout : list string
}.

(** A cell's computation: it may change the world and then return or raise;
    what was done before an exception stays done. *)
Definition io (A : Type) : Type := world -> result A * world.

Definition io_ret {A} (a : A) : io A := fun w => (Ok a, w).

Definition io_bind {A B} (m : io A) (k : A -> io B) : io B :=
  fun w =>
    match m w with
    | (Ok a, w') => k a w'
    | (Raise e, w') => (Raise e, w')
    end.

Definition io_lift {A} (r : result A) : io A := fun w => (r, w).

Declare Scope io_scope.
Delimit Scope io_scope with io.
Notation "x <-- m ;; k" := (io_bind m (fun x => k))
  (at level 100, m at next level, right associativity) : io_scope.
Notation "m ;;; k" := (io_bind m (fun _ => k))
  (at level 100, right associativity) : io_scope.

(** [for x in l: body(x)] *)
Fixpoint for_each {A} (body : A -> io unit) (l : list A) : io unit :=
  match l with
  | [] => io_ret tt
  | x :: l' => io_bind (body x) (fun _ => for_each body l')
  end.

(** [print(line)] *)
Definition print (line : string) : io unit :=
  fun w => (Ok tt, {| files := files w; stdout := stdout w ++ [line] |}).

(** [shutil.copyfile(src, dst)]: [FileNotFoundError] when [src] is absent,
    [SameFileError] when both name the same file, otherwise [dst] is
    created or overwritten with the content of [src].  The store has no
    directories: the directory of [dst] is taken to have been made (the
    notebook makes it with [os.makedirs] before the loop), so what is
    stated of a copy that succeeds is stated under the hypothesis that it
    did. *)
Definition copyfile (src dst : string) : io unit :=
  fun w =>
    match files w !! normpath src with
    | None => (Raise (FileNotFoundError src), w)
    | Some a =>
        if decide (normpath src = normpath dst)
        then (Raise (SameFileError src), w)
        else (Ok tt, {| files := <[normpath dst := a]> (files w);
                         stdout := stdout w |})
    end.

(** [np.load(path, allow_pickle=True)]: the pickled dictionary of a
    [.trb]; a missing file and a file that is no pickle raise. *)
Definition np_load (path : string) : io (gmap string string) :=
  fun w =>
    match files w !! normpath path with
    | None => (Raise (FileNotFoundError path), w)
    | Some (Data _) => (Raise (LoadError path), w)
    | Some (Trb d) => (Ok d, w)
    end.

(** [d[k]] on a dictionary. *)
Definition dict_getitem (d : gmap string string) (k : string) : result string :=
  match d !! k with
  | Some v => Ok v
  | None => Raise (KeyError k)
  end.

(** ** The Artifact Promoter *)

(** The body of [for i,row in hits.iterrows(): ...]: four copies, in the
    order of the cell. *)
Definition promote_row (outdir : string) (r : row) : io unit :=
  (copyfile (folder r +:+ "/" +:+ name r +:+ ".pdb")
            (outdir +:+ name r +:+ ".pdb") ;;;
   copyfile (folder r +:+ "af2/" +:+ name r +:+ ".pdb")
            (outdir +:+ "af2/" +:+ name r +:+ "_af2pred.pdb") ;;;
   copyfile (folder r +:+ "../" +:+ name r +:+ ".trb")
            (outdir +:+ name r +:+ ".trb") ;;;
   copyfile (folder r +:+ "../" +:+ name r +:+ ".fas")
            (outdir +:+ name r +:+ ".fas"))%io.

Definition promote (outdir : string) (hits : DataFrame) : io unit :=
  for_each (promote_row outdir) (rows hits).

(** ** Run 2: the Generation Propagator *)

Module Run2.

(** The variables the run-2 cell sets before its loop; [parent_designs] is
    what [glob.glob('output/hits_r1/*pdb')] returned. *)
Record knobs : Type := {
  total_num : Z;
  batch : Z;
  ref_pdb : string;
  receptor : string;
  force_aa : string;
  parent_designs : list string;
  run : string;
  outdir : string
}.

(** What one iteration of the run-2 loop interpolates into its command. *)
Record job_spec : Type := {
  js_pdb : string;
  js_out : string;
  js_num : Z;
  js_start_num : Z;
  js_mask : string;
  js_use_template : string;
  js_spike_fas : string;
  js_spike : string;
  js_force_aa : string;
  js_receptor : string;
  js_log : string
}.

(** The f-string of the run-2 loop. *)
Definition cmd2 (j : job_spec) : string :=
  "source activate SE3; python ../../hallucination/hallucinate.py "
  +:+ "--pdb=" +:+ js_pdb j +:+ " --out=" +:+ js_out j +:+ " "
  +:+ "--steps m300 --num=" +:+ str_of_int (js_num j)
  +:+ " --start_num=" +:+ str_of_int (js_start_num j) +:+ " "
  +:+ "--mask " +:+ js_mask j +:+ " --use_template " +:+ js_use_template j +:+ " "
  +:+ "--spike_fas " +:+ js_spike_fas j +:+ " --spike " +:+ js_spike j +:+ " "
  +:+ "--force_aa " +:+ js_force_aa j +:+ " --exclude_aa C "
  +:+ "--receptor " +:+ js_receptor j +:+ " --rec_placement second "
  +:+ "--w_rog=1 --rog_thresh=16 "
  +:+ "--save_pdb=True --track_step 1 "
  +:+ "&>> " +:+ js_log j.

(** [[x for x in l if x[0]=='A']] *)
Fixpoint keep_A (l : list string) : result (list string) :=
  match l with
  | [] => Ok []
  | x :: l' =>
      c <- str_getitem0 x ;;
      rest <- keep_A l' ;;
      Ok (if Ascii.eqb c "A" then x :: rest else rest)
  end.

(** [','.join([x for x in sampled_mask.split(',') if x[0]=='A'])] *)
Definition contigs_of (sampled_mask : string) : result string :=
  kept <- keep_A (str_split sampled_mask ","%char) ;;
  Ok (str_join "," kept).

(** The spec built from a parent's file name and its run-metadata. *)
Definition child_spec (k : knobs) (istart : Z) (fn : string)
    (trb : gmap string string) : result job_spec :=
  let name := basename (str_replace fn ".pdb" "") in
  mask <- dict_getitem trb "sampled_mask" ;;
  contigs <- contigs_of mask ;;
  let run_name := name +:+ "_" +:+ run k in
  Ok {| js_pdb := ref_pdb k;
        js_out := outdir k +:+ run_name;
        js_num := batch k;
        js_start_num := istart;
        js_mask := mask;
        js_use_template := contigs;
        js_spike_fas := str_replace fn ".pdb" ".fas";
        js_spike := "0.999";
        js_force_aa := force_aa k;
        js_receptor := receptor k;
        js_log := outdir k +:+ run_name +:+ "_" +:+ str_of_int istart +:+ ".log" |}.

(** The body of the inner loop, for one parent design. *)
Definition propagate (k : knobs) (istart : Z) (fn : string) : io unit :=
  (trb <-- np_load (str_replace fn ".pdb" ".trb") ;;
   j <-- io_lift (child_spec k istart fn trb) ;;
   print (cmd2 j))%io.

(** [for istart in np.arange(0, total_num, batch):
       for fn in parent_designs: ...] *)
Definition run2 (k : knobs) : io unit :=
  (istarts <-- io_lift (np_arange 0 (total_num k) (batch k)) ;;
   for_each (fun istart => for_each (propagate k istart) (parent_designs k))
            istarts)%io.

(** The knobs of the notebook's run-2 cell, for a given list of parents. *)
Definition tutorial_knobs (parents : list string) : knobs :=
  {| total_num := 10; batch := 5;
     ref_pdb := "input/pd1.pdb";
     receptor := "input/pdl1_trunc.pdb";
     force_aa := "A64,A66,A68,A70,A73-81,A123-124,A127,A128,A132-136,A139";
     parent_designs := parents;
     run := "r2";
     outdir := "output/run2/" |}.

End Run2.

(** ** Constraint layouts *)

(** The segments a layout string lists: a fixed segment (chain identifier
    and residue range, [A63-82]), a free segment with a length range
    ([25-35], or [27-27] once resolved), a free segment with one length
    ([30]). *)
Inductive segment : Type :=
| Fixed (chain : ascii) (lo hi : Z)
| Range (lo hi : Z)
| Len (n : Z).

Definition render_segment (s : segment) : string :=
  match s with
  | Fixed c lo hi => String c (str_of_int lo +:+ "-" +:+ str_of_int hi)
  | Range lo hi => str_of_int lo +:+ "-" +:+ str_of_int hi
  | Len n => str_of_int n
  end.

Definition render_layout (l : list segment) : string :=
  str_join "," (List.map render_segment l).

Definition is_fixed (s : segment) : bool :=
  match s with Fixed _ _ _ => true | _ => false end.

Definition on_chain (c : ascii) (s : segment) : bool :=
  match s with Fixed c' _ _ => Ascii.eqb c' c | _ => false end.

(** A chain identifier is a letter. *)
Definition is_letter (c : ascii) : bool :=
  let n := N_of_ascii c in
  ((65 <=? n) && (n <=? 90) || (97 <=? n) && (n <=? 122))%N.

Definition wf_segment (s : segment) : Prop :=
  match s with
  | Fixed c _ _ => is_letter c = true
  | _ => True
  end.

(** ** Concrete inputs *)


(** No design at all. *)
Definition intent_zero : Run1.intent :=
  {| Run1.total_num := 0; Run1.batch := 5;
     Run1.ref_pdb := "input/pd1.pdb";
     Run1.mask := "25-35,A63-82,15-25,A119-140,0-15";
     Run1.run_name := "pd1_r1";
     Run1.outdir := "output/run1/" |}.

(** A layout with a fixed segment far beyond the residues of PD-1 and a
    free segment whose range starts at a negative length. *)
Definition intent_bad_layout : Run1.intent :=
  {| Run1.total_num := 20; Run1.batch := 5;
     Run1.ref_pdb := "input/pd1.pdb";
     Run1.mask := "-5-35,A9063-9082,15-25,A119-140,0-15";
     Run1.run_name := "pd1_r1";
     Run1.outdir := "output/run1/" |}.

Definition metric_columns : list string :=
  ["af2_lddt"; "contig_rmsd_af2"; "rog"].

Definition mk_row (i : Z) (n : string) (lddt rmsd rog : float64) : row :=
  {| index := i; name := n; folder := "output/run1/trf_relax/";
     metrics := <["af2_lddt" := lddt]>
                  (<["contig_rmsd_af2" := rmsd]> (<["rog" := rog]> ∅)) |}.

(** The two hits of the notebook, with the rounded figures of the scenario. *)
Definition row_10 : row :=
  mk_row 0 "pd1_r1_10" (Finite 69) (Finite (141 # 100)) (Finite (138 # 10)).
Definition row_13 : row :=
  mk_row 19 "pd1_r1_13" (Finite 66) (Finite (145 # 100)) (Finite (131 # 10)).

Definition two_hits_table : DataFrame :=
  {| columns := metric_columns; rows := [row_10; row_13] |}.

(** A design below the lddt threshold, and one whose AF2 scores are missing. *)
Definition row_low : row :=
  mk_row 1 "pd1_r1_0" (Finite 50) (Finite (141 # 100)) (Finite (138 # 10)).
Definition row_unscored : row :=
  mk_row 2 "pd1_r1_1" NaN NaN (Finite (138 # 10)).

Definition no_hit_table : DataFrame :=
  {| columns := metric_columns; rows := [row_low] |}.

Definition mixed_table : DataFrame :=
  {| columns := metric_columns; rows := [row_10; row_low; row_unscored; row_13] |}.

Definition lddt_above (t : Q) : predicate :=
  {| p_col := "af2_lddt"; p_cmp := GT; p_thr := t |}.

(** ** Vocabulary of the statements *)

(** The table has the column a predicate compares. *)
Definition present (df : DataFrame) (p : predicate) : Prop :=
  p_col p ∈ columns df.

(** The same predicate with another threshold. *)
Definition with_threshold (p : predicate) (t : Q) : predicate :=
  {| p_col := p_col p; p_cmp := p_cmp p; p_thr := t |}.

(** [c in s], every character of [s] passes [P], and [pat in s]. *)
Fixpoint has_char (c : ascii) (s : string) : bool :=
  match s with
  | EmptyString => false
  | String c' s' => Ascii.eqb c' c || has_char c s'
  end.

Fixpoint string_forall (P : ascii -> bool) (s : string) : bool :=
  match s with
  | EmptyString => true
  | String c s' => P c && string_forall P s'
  end.

Fixpoint occurs_in (pat s : string) : bool :=
  match s with
  | EmptyString => String.prefix pat EmptyString
  | String _ s' => String.prefix pat s || occurs_in pat s'
  end.

Definition digit_or_minus (c : ascii) : bool :=
  let n := N_of_ascii c in
  ((48 <=? n) && (n <=? 57) || (n =? 45))%N.

(** [x.startswith('A')] *)
Definition starts_with_A (x : string) : bool :=
  match x with
  | EmptyString => false
  | String c _ => Ascii.eqb c "A"
  end.

(** The world after some more lines have been printed. *)
Definition printed (w : world) (lines : list string) : world :=
  {| files := files w; stdout := stdout w ++ lines |}.

(** ** Concrete stores *)

Definition hits_dir : string := "output/hits_r1/".
Definition parent_10 : string := "output/hits_r1/pd1_r1_10.pdb".
Definition parent_13 : string := "output/hits_r1/pd1_r1_13.pdb".

(** The run-metadata of [pd1_r1_13] as the notebook shows it, with another
    field next to the sampled layout. *)
Definition trb_13 : gmap string string :=
  <["sampled_mask" := "27-27,A63-82,21-21,A119-140,3-3"]>
    (<["settings" := "steps=g600"]> ∅).

(** The same sampled layout in a record whose other field differs. *)
Definition trb_13' : gmap string string :=
  <["sampled_mask" := "27-27,A63-82,21-21,A119-140,3-3"]>
    (<["settings" := "steps=g600,seed=7"]> ∅).

(** The realized layout of the scenario, one length per free segment. *)
Definition scenario_layout : list segment :=
  [Len 30; Fixed "A" 63 82; Len 21; Fixed "A" 119 140; Len 3].

Definition trb_scenario : gmap string string :=
  <["sampled_mask" := render_layout scenario_layout]> ∅.

(** A realized layout whose motif is on chain B. *)
Definition chain_B_layout : list segment :=
  [Range 5 5; Fixed "B" 10 20; Range 3 3].

Definition trb_chain_B : gmap string string :=
  <["sampled_mask" := render_layout chain_B_layout]> ∅.

(** Run 1 has left the four artifacts of [pd1_r1_13] and none of
    [pd1_r1_10]. *)
Definition run1_store : gmap string artifact :=
  <["output/run1/trf_relax/pd1_r1_13.pdb" := Data "ATOM relaxed 13"]>
    (<["output/run1/trf_relax/af2/pd1_r1_13.pdb" := Data "ATOM af2 13"]>
       (<["output/run1/pd1_r1_13.trb" := Trb trb_13]>
          (<["output/run1/pd1_r1_13.fas" := Data ">pd1_r1_13"]> ∅))).

Definition run1_world : world := {| files := run1_store; stdout := [] |}.

(** The hits directory holds both structures but the metadata of
    [pd1_r1_13] only. *)
Definition hits_store : gmap string artifact :=
  <["output/hits_r1/pd1_r1_10.pdb" := Data "ATOM relaxed 10"]>
    (<["output/hits_r1/pd1_r1_13.pdb" := Data "ATOM relaxed 13"]>
       (<["output/hits_r1/pd1_r1_13.trb" := Trb trb_13]>
          (<["output/hits_r1/pd1_r1_13.fas" := Data ">pd1_r1_13"]> ∅))).

Definition hits_world : world := {| files := hits_store; stdout := [] |}.

(** Another store with the same metadata for [pd1_r1_13]: one more file,
    and something printed before. *)
Definition hits_world' : world :=
  {| files := <["output/hits_r1/pd1_r1_10.trb" := Trb trb_13']> hits_store;
     stdout := ["earlier output"] |}.

(** ** Further vocabulary *)

(** [df['folder'] = f]: every row gets the folder [f]. *)
Definition set_folder (f : string) (df : DataFrame) : DataFrame :=
  {| columns := columns df;
     rows := List.map (fun r => {| index := index r; name := name r;
                                   folder := f; metrics := metrics r |})
               (rows df) |}.

(** The column of the first predicate, in order, that compares a column the
    table lacks. *)
Fixpoint first_missing (df : DataFrame) (ps : list predicate) : option string :=
  match ps with
  | [] => None
  | p :: ps' =>
      if decide (p_col p ∈ columns df) then first_missing df ps'
      else Some (p_col p)
  end.

(** The four files [promote_row] reads and the four it writes, in the
    order of its copies. *)
Definition promote_sources (r : row) : list string :=
  [ folder r +:+ "/" +:+ name r +:+ ".pdb";
    folder r +:+ "af2/" +:+ name r +:+ ".pdb";
    folder r +:+ "../" +:+ name r +:+ ".trb";
    folder r +:+ "../" +:+ name r +:+ ".fas" ].

Definition promote_targets (outdir : string) (r : row) : list string :=
  [ outdir +:+ name r +:+ ".pdb";
    outdir +:+ "af2/" +:+ name r +:+ "_af2pred.pdb";
    outdir +:+ name r +:+ ".trb";
    outdir +:+ name r +:+ ".fas" ].

(** No file that is read is also written: the hits directory is apart from
    the folders of the run. *)
Definition apart (outdir : string) (r : row) : Prop :=
  forall s d, In s (promote_sources r) -> In d (promote_targets outdir r) ->
              normpath s <> normpath d.

(** One copy of [promote_row]: a pair of a file read and the file written. *)
Definition copy_pair (p : string * string) : io unit := copyfile (fst p) (snd p).

(** The command [propagate] prints for a parent in a given store (the empty
    string where it prints none). *)
Definition command_for (k : Run2.knobs) (w : world) (istart : Z) (fn : string)
  : string :=
  match files w !! normpath (str_replace fn ".pdb" ".trb") with
  | Some (Trb d) =>
      match Run2.child_spec k istart fn d with
      | Ok j => Run2.cmd2 j
      | Raise _ => ""
      end
  | _ => ""
  end.

(** A path that names its file directly: it goes through no [..], no [.]
    and no doubled slash, so that the file being in the store is enough for
    it to be found. *)
Definition plain_path (p : string) : Prop := normpath p = p.

(** A parent whose run-metadata is in the store, under a plain path, and
    records a sampled layout without an empty piece. *)
Definition usable_parent (w : world) (fn : string) : Prop :=
  exists d m,
    plain_path (str_replace fn ".pdb" ".trb") /\
    files w !! normpath (str_replace fn ".pdb" ".trb") = Some (Trb d) /\
    d !! "sampled_mask" = Some m /\
    Forall (fun x => x <> "") (str_split m ",").

(** * Properties *)

(** ** Run 1 *)

Section Run1_facts.
Import Run1.

Lemma arange_len_bounds (stop step : Z) :
  0 < step -> 0 < stop ->
  0 < arange_len 0 stop step /\
  (arange_len 0 stop step - 1) * step < stop <= arange_len 0 stop step * step.
Proof.
  intros Hstep Hstop. unfold arange_len.
  pose proof (Z.div_mod (0 - stop) step ltac:(lia)) as Hdm.
  pose proof (Z.mod_pos_bound (0 - stop) step Hstep) as Hr.
  set (d := (0 - stop) / step) in *.
  set (r := (0 - stop) mod step) in *.
  assert (d < 0) by nia.
  rewrite Z.max_r by lia. split; [lia | nia].
Qed.

Lemma arange_len_nonpos (stop step : Z) :
  0 < step -> stop <= 0 -> arange_len 0 stop step = 0.
Proof.
  intros Hstep Hstop. unfold arange_len.
  assert (0 <= (0 - stop) / step) by (apply Z.div_pos; lia).
  lia.
Qed.

Lemma run1_specs_eq (i : intent) :
  batch i <> 0 -> run1_specs i = Ok (spec_list i).
Proof.
  intros Hb. unfold run1_specs, np_arange, spec_list.
  destruct (Z.eqb_spec (batch i) 0) as [|_]; [contradiction|].
  cbn [bind]. f_equal. rewrite List.map_map. reflexivity.
Qed.

Lemma spec_list_length (i : intent) :
  Z.of_nat (length (spec_list i)) = arange_len 0 (total_num i) (batch i).
Proof.
  unfold spec_list. rewrite length_map, length_seq.
  apply Z2Nat.id. unfold arange_len. lia.
Qed.

Lemma spec_list_nth (i : intent) (k : nat) (s : job_spec) :
  nth_error (spec_list i) k = Some s ->
  (k < length (spec_list i))%nat /\ s = spec1 i (Z.of_nat k * batch i).
Proof.
  intros H. split.
  - apply nth_error_Some. congruence.
  - unfold spec_list in H. rewrite nth_error_map, nth_error_seq in H.
    destruct (k <? _)%nat; cbn in H; congruence.
Qed.


End Run1_facts.




(** C5, counterexample: with [total_num = 0] the builder returns the empty
    list of specs and raises nothing; with a fixed segment outside the
    reference structure and a negative free-segment endpoint it emits its
    four specs all the same. *)
Lemma run1_configuration_error_counterexample :
  Run1.run1_specs intent_zero = Ok [] /\
  raises (Run1.run1_specs intent_zero) = false /\
  raises (Run1.run1_specs intent_bad_layout) = false /\
  exists specs,
    Run1.run1_specs intent_bad_layout = Ok specs /\
    length specs = 4%nat /\
    Forall (fun s => Run1.js_mask s = "-5-35,A9063-9082,15-25,A119-140,0-15") specs.
Proof.
  split; [reflexivity|]. split; [reflexivity|]. split; [reflexivity|].
  eexists. split; [reflexivity|]. split; [reflexivity|].
  repeat constructor.
Qed.

(** C5, as the code has it: the builder checks nothing and has no
    ConfigurationError.  With [total_num <= 0] (and [batch > 0]) it returns
    the empty list of specs without failing; with [total_num > 0] and
    [batch > 0] it emits a non-empty list of specs that carry the layout
    and the reference structure of the intent verbatim, whatever they are;
    the only exception it can raise is the [ZeroDivisionError] of
    [np.arange], at [batch = 0]. *)
Theorem run1_checks_nothing (i : Run1.intent) :
  (Run1.total_num i <= 0 -> 0 < Run1.batch i ->
   Run1.run1_specs i = Ok [] /\ Run1.run1 i = Ok []) /\
  (0 < Run1.total_num i -> 0 < Run1.batch i ->
   exists specs,
     Run1.run1_specs i = Ok specs /\ specs <> [] /\
     Forall (fun s => Run1.js_mask s = Run1.mask i /\
                      Run1.js_pdb s = Run1.ref_pdb i) specs) /\
  (forall e, Run1.run1_specs i = Raise e ->
             e = ZeroDivisionError /\ Run1.batch i = 0).
Proof.
  split; [|split].
  - intros Ht Hb.
    assert (E : Run1.run1_specs i = Ok []).
    { rewrite run1_specs_eq by lia. unfold Run1.spec_list.
      rewrite arange_len_nonpos by lia. reflexivity. }
    split; [exact E|]. unfold Run1.run1. rewrite E. reflexivity.
  - intros Ht Hb. exists (Run1.spec_list i).
    split; [apply run1_specs_eq; lia|]. split.
    + pose proof (arange_len_bounds _ _ Hb Ht) as [Hpos _].
      rewrite <- spec_list_length in Hpos.
      destruct (Run1.spec_list i); [cbn in Hpos; lia | discriminate].
    + unfold Run1.spec_list. apply List.Forall_forall. intros s Hs.
      apply in_map_iff in Hs as (k & <- & _). cbn. auto.
  - intros e He. unfold Run1.run1_specs, np_arange in He.
    destruct (Z.eqb_spec (Run1.batch i) 0) as [E0|_]; cbn in He.
    + injection He as <-. auto.
    + discriminate.
Qed.

Lemma run1_checks_nothing_witness :
  Run1.total_num intent_zero <= 0 /\ 0 < Run1.batch intent_zero /\
  Run1.run1 intent_zero = Ok [].
Proof.
  split; [cbn; lia|]. split; [reflexivity|].
  apply (proj1 (run1_checks_nothing intent_zero)); [cbn; lia | reflexivity].
Defined.

(** ** The Hit Selector *)

Section Hit_selector_facts.

Lemma Qltb_lt (a b : Q) : Qltb a b = true <-> (a < b)%Q.
Proof. unfold Qltb, Qlt. apply Z.ltb_lt. Qed.

Lemma getitem_col_ok (df : DataFrame) (c : string) :
  c ∈ columns df ->
  getitem_col df c = Ok (List.map (fun r => cell r c) (rows df)).
Proof. intros H. unfold getitem_col. destruct (decide _); [reflexivity | contradiction]. Qed.

Lemma getitem_col_raise (df : DataFrame) (c : string) (e : exn) :
  getitem_col df c = Raise e -> e = KeyError c /\ c ∉ columns df.
Proof.
  unfold getitem_col. destruct (decide _); [discriminate|].
  intros [= <-]. auto.
Qed.

Lemma series_cmp_map (o : cmp) (t : Q) (c : string) (l : list row) :
  series_cmp o (List.map (fun r => cell r c) l) t
  = List.map (fun r => float_cmp o (cell r c) t) l.
Proof. destruct o; cbn; unfold series_gt, series_lt; apply List.map_map. Qed.

Lemma pred_mask_ok (df : DataFrame) (p : predicate) :
  p_col p ∈ columns df ->
  pred_mask df p = Ok (List.map (fun r => satisfies r p) (rows df)).
Proof.
  intros H. unfold pred_mask. rewrite getitem_col_ok by exact H. cbn.
  rewrite series_cmp_map. reflexivity.
Qed.

Lemma pred_mask_raise (df : DataFrame) (p : predicate) (e : exn) :
  pred_mask df p = Raise e -> e = KeyError (p_col p) /\ p_col p ∉ columns df.
Proof.
  unfold pred_mask. destruct (getitem_col df (p_col p)) eqn:E; [discriminate|].
  cbn. intros [= <-]. apply getitem_col_raise. exact E.
Qed.

Lemma mask_and_map {A} (f g : A -> bool) (l : list A) :
  mask_and (List.map f l) (List.map g l) = List.map (fun x => f x && g x) l.
Proof. unfold mask_and. induction l; cbn; congruence. Qed.

Lemma getitem_mask_map (df : DataFrame) (f : row -> bool) :
  getitem_mask df (List.map f (rows df))
  = {| columns := columns df; rows := List.filter f (rows df) |}.
Proof.
  unfold getitem_mask. f_equal.
  induction (rows df) as [|r l IH]; cbn; [reflexivity|].
  destruct (f r); cbn; congruence.
Qed.

Lemma and_masks_ok (df : DataFrame) (ps : list predicate) (f : row -> bool) :
  Forall (present df) ps ->
  and_masks df (List.map f (rows df)) ps
  = Ok (List.map (fun r => f r && satisfies_all ps r) (rows df)).
Proof.
  intros H. revert f. induction H as [|p ps Hp _ IH]; intros f; cbn.
  - f_equal. apply List.map_ext. intros r. symmetry. apply andb_true_r.
  - rewrite pred_mask_ok by exact Hp. cbn.
    rewrite mask_and_map, IH. f_equal. apply List.map_ext.
    intros r. symmetry. apply andb_assoc.
Qed.

Lemma and_masks_raise (df : DataFrame) (ps : list predicate) (acc : list bool) (e : exn) :
  and_masks df acc ps = Raise e ->
  exists p, In p ps /\ e = KeyError (p_col p) /\ p_col p ∉ columns df.
Proof.
  revert acc. induction ps as [|p ps IH]; intros acc; cbn; [discriminate|].
  destruct (pred_mask df p) eqn:E; cbn.
  - intros H. apply IH in H as (q & Hq & He). exists q. auto.
  - intros [= <-]. exists p. split; [auto|]. apply pred_mask_raise. exact E.
Qed.

Lemma and_masks_present (df : DataFrame) (ps : list predicate) (acc m : list bool) :
  and_masks df acc ps = Ok m -> Forall (present df) ps.
Proof.
  revert acc. induction ps as [|p ps IH]; intros acc; cbn; [constructor|].
  destruct (pred_mask df p) eqn:E; cbn; [|discriminate].
  intros H. constructor; [|eapply IH; exact H].
  unfold present. unfold pred_mask, getitem_col in E.
  destruct (decide _); [assumption | discriminate].
Qed.

Lemma hit_selector_ok (ps : list predicate) (df : DataFrame) :
  Forall (present df) ps ->
  hit_selector ps df
  = Ok {| columns := columns df;
          rows := List.filter (satisfies_all ps) (rows df) |}.
Proof.
  intros H. destruct H as [|p ps Hp Hps]; cbn.
  - f_equal. destruct df as [cs rs]. cbn. f_equal.
    induction rs; cbn; congruence.
  - rewrite pred_mask_ok by exact Hp. cbn.
    rewrite and_masks_ok by exact Hps. cbn.
    rewrite getitem_mask_map. reflexivity.
Qed.

Lemma hit_selector_raise (ps : list predicate) (df : DataFrame) (e : exn) :
  hit_selector ps df = Raise e ->
  exists p, In p ps /\ e = KeyError (p_col p) /\ p_col p ∉ columns df.
Proof.
  destruct ps as [|p ps]; cbn; [discriminate|].
  destruct (pred_mask df p) eqn:E; cbn.
  - destruct (and_masks df a ps) eqn:E'; cbn; [discriminate|].
    intros [= <-]. apply and_masks_raise in E' as (q & Hq & He). exists q. auto.
  - intros [= <-]. exists p. split; [auto|]. apply pred_mask_raise. exact E.
Qed.

Lemma hit_selector_present (ps : list predicate) (df out : DataFrame) :
  hit_selector ps df = Ok out -> Forall (present df) ps.
Proof.
  destruct ps as [|p ps]; cbn; [constructor|].
  destruct (pred_mask df p) eqn:E; cbn; [|discriminate].
  destruct (and_masks df a ps) eqn:E'; cbn; [|discriminate].
  intros _. constructor; [|eapply and_masks_present; exact E'].
  unfold present. unfold pred_mask, getitem_col in E.
  destruct (decide _); [assumption | discriminate].
Qed.

Lemma hits_eq (df : DataFrame) : hits df = hit_selector tutorial_predicates df.
Proof.
  unfold hits, hit_selector, tutorial_predicates, and_masks, pred_mask.
  cbn [p_col p_cmp p_thr series_cmp].
  destruct (getitem_col df "af2_lddt"); [|reflexivity].
  destruct (getitem_col df "contig_rmsd_af2"); [|reflexivity].
  destruct (getitem_col df "rog"); reflexivity.
Qed.

(** Loosening the threshold of a comparison keeps every cell that passed. *)
Lemma float_cmp_looser (o : cmp) (x : float64) (t t' : Q) :
  looser o t t' -> float_cmp o x t = true -> float_cmp o x t' = true.
Proof.
  destruct o, x; cbn; try (intros; assumption || discriminate).
  - rewrite !Qltb_lt. intros. eapply Qle_lt_trans; eassumption.
  - rewrite !Qltb_lt. intros. eapply Qlt_le_trans; eassumption.
Qed.

Lemma float_cmp_nan (o : cmp) (t : Q) : float_cmp o NaN t = false.
Proof. destruct o; reflexivity. Qed.

Lemma filter_sublist {A} (f g : A -> bool) (l : list A) :
  (forall x, f x = true -> g x = true) ->
  sublist (List.filter f l) (List.filter g l).
Proof.
  intros H. induction l as [|x l IH]; cbn; [constructor|].
  destruct (f x) eqn:Ef.
  - rewrite (H x Ef). constructor. exact IH.
  - destruct (g x); [constructor|]; exact IH.
Qed.

Lemma filter_sublist_self {A} (f : A -> bool) (l : list A) :
  sublist (List.filter f l) l.
Proof.
  induction l as [|x l IH]; cbn; [constructor|].
  destruct (f x); constructor; exact IH.
Qed.

End Hit_selector_facts.

(** C3: for every table and every list of predicates on columns of the
    table, the Hit Selector returns exactly the rows that satisfy all the
    predicates, in the order of the table; the cell of the notebook is the
    instance with [af2_lddt > 60], [contig_rmsd_af2 < 1.5], [rog < 16], and
    the two rows of the scenario both survive it. *)
Theorem hit_selector_exact (ps : list predicate) (df : DataFrame) :
  Forall (present df) ps ->
  exists out,
    hit_selector ps df = Ok out /\
    columns out = columns df /\
    rows out = List.filter (satisfies_all ps) (rows df) /\
    sublist (rows out) (rows df) /\
    (forall r, In r (rows out) <-> In r (rows df) /\ satisfies_all ps r = true) /\
    (ps = tutorial_predicates -> hits df = Ok out) /\
    hits two_hits_table = Ok two_hits_table.
Proof.
  intros H. eexists. split; [apply hit_selector_ok; exact H|]. cbn.
  split; [reflexivity|]. split; [reflexivity|].
  split; [apply filter_sublist_self|].
  split; [intros r; apply filter_In|].
  split; [|reflexivity].
  intros ->. rewrite hits_eq. apply hit_selector_ok. exact H.
Qed.

Lemma tutorial_predicates_present :
  forall rs, Forall (present {| columns := metric_columns; rows := rs |})
                    tutorial_predicates.
Proof.
  intros rs. unfold tutorial_predicates, present, metric_columns. cbn.
  repeat constructor.
Defined.

Lemma hit_selector_exact_witness :
  Forall (present two_hits_table) tutorial_predicates /\
  exists out,
    hit_selector tutorial_predicates two_hits_table = Ok out /\
    rows out = [row_10; row_13].
Proof.
  split; [apply tutorial_predicates_present|].
  destruct (hit_selector_exact tutorial_predicates two_hits_table)
    as (out & Hout & _ & Hrows & _); [apply tutorial_predicates_present|].
  exists out. split; [exact Hout|]. rewrite Hrows. reflexivity.
Defined.

(** C4, counterexample: no row of [no_hit_table] passes the filter of the
    notebook, and no row of the two-hit table passes [af2_lddt > 80]; in
    both cases the selector returns the empty table and raises nothing. *)
Lemma hits_empty_counterexample :
  hits no_hit_table = Ok {| columns := metric_columns; rows := [] |} /\
  raises (hits no_hit_table) = false /\
  hit_selector [lddt_above 80] two_hits_table
  = Ok {| columns := metric_columns; rows := [] |}.
Proof. repeat split. Qed.

(** C4, as the code has it: the Hit Selector has no relaxation and no
    EmptySelectionError.  On a table that has the columns of the predicates
    it always returns a table, which is empty exactly when no row satisfies
    all the predicates; the only exception it can raise is the [KeyError]
    of a predicate on a column the table lacks. *)
Theorem hit_selector_empty_is_returned (ps : list predicate) (df : DataFrame) :
  (Forall (present df) ps ->
   exists out,
     hit_selector ps df = Ok out /\
     (rows out = [] <->
      forall r, In r (rows df) -> satisfies_all ps r = false)) /\
  (forall e, hit_selector ps df = Raise e ->
     exists p, In p ps /\ e = KeyError (p_col p) /\ p_col p ∉ columns df).
Proof.
  split; [|apply hit_selector_raise].
  intros H. eexists. split; [apply hit_selector_ok; exact H|]. cbn.
  induction (rows df) as [|r l IH]; cbn.
  - split; [intros _ r [] | reflexivity].
  - destruct (satisfies_all ps r) eqn:E.
    + split; [discriminate|]. intros Hall.
      rewrite Hall in E by auto. discriminate.
    + rewrite IH. split.
      * intros Hall r' [<-|Hr']; auto.
      * intros Hall r' Hr'. apply Hall. auto.
Qed.

Lemma hit_selector_empty_is_returned_witness :
  Forall (present no_hit_table) tutorial_predicates /\
  exists out, hit_selector tutorial_predicates no_hit_table = Ok out /\ rows out = [].
Proof.
  split; [apply tutorial_predicates_present|].
  destruct (proj1 (hit_selector_empty_is_returned tutorial_predicates no_hit_table))
    as (out & Hout & Hempty); [apply tutorial_predicates_present|].
  exists out. split; [exact Hout|]. apply Hempty.
  intros r [<-|[]]. reflexivity.
Defined.

(** C7: on a fixed table, loosening the threshold of one predicate (the
    others unchanged) keeps every row of the result, in order: the new
    result contains the old one. *)
Theorem hit_selector_monotone (ps1 ps2 : list predicate) (p : predicate)
    (t' : Q) (df out : DataFrame) :
  looser (p_cmp p) (p_thr p) t' ->
  hit_selector (ps1 ++ p :: ps2) df = Ok out ->
  exists out',
    hit_selector (ps1 ++ with_threshold p t' :: ps2) df = Ok out' /\
    sublist (rows out) (rows out') /\
    (forall r, In r (rows out) -> In r (rows out')).
Proof.
  intros Hl Hout.
  pose proof (hit_selector_present _ _ _ Hout) as Hp.
  assert (Hp' : Forall (present df) (ps1 ++ with_threshold p t' :: ps2)).
  { apply Forall_app in Hp as [H1 H2]. apply Forall_app. split; [exact H1|].
    inversion H2; subst. constructor; assumption. }
  rewrite hit_selector_ok in Hout by exact Hp. injection Hout as <-.
  eexists. split; [apply hit_selector_ok; exact Hp'|]. cbn.
  assert (Himp : forall r, satisfies_all (ps1 ++ p :: ps2) r = true ->
                           satisfies_all (ps1 ++ with_threshold p t' :: ps2) r = true).
  { intros r. unfold satisfies_all. rewrite !forallb_app. cbn.
    rewrite !andb_true_iff. intros (H1 & H2 & H3). repeat split; try assumption.
    unfold satisfies in *. cbn. eapply float_cmp_looser; eassumption. }
  split; [apply filter_sublist; exact Himp|].
  intros r. rewrite !filter_In. intros [Hin Hs]. auto.
Qed.

Lemma hit_selector_monotone_witness :
  looser GT 60 50 /\
  exists out',
    hit_selector (lddt_above 50 :: List.tl tutorial_predicates) mixed_table = Ok out' /\
    sublist [row_10; row_13] (rows out').
Proof.
  split; [cbn; unfold Qle; cbn; lia|].
  destruct (hit_selector_monotone [] (List.tl tutorial_predicates) (lddt_above 60) 50
              mixed_table
              {| columns := metric_columns; rows := [row_10; row_13] |})
    as (out' & Hout' & Hsub & _).
  - cbn. unfold Qle. cbn. lia.
  - reflexivity.
  - exists out'. split; [exact Hout' | exact Hsub].
Defined.

(** C9: a row whose cell is missing (NaN) in a column that some predicate
    compares is never among the hits. *)
Theorem nan_row_is_no_hit (ps : list predicate) (df out : DataFrame)
    (p : predicate) (r : row) :
  hit_selector ps df = Ok out ->
  In p ps ->
  cell r (p_col p) = NaN ->
  ~ In r (rows out).
Proof.
  intros Hout Hp Hnan Hin.
  pose proof (hit_selector_present _ _ _ Hout) as Hpres.
  rewrite hit_selector_ok in Hout by exact Hpres. injection Hout as <-.
  cbn in Hin. apply filter_In in Hin as [_ Hs].
  unfold satisfies_all in Hs. rewrite forallb_forall in Hs.
  specialize (Hs p Hp). unfold satisfies in Hs.
  rewrite Hnan, float_cmp_nan in Hs. discriminate.
Qed.

Lemma nan_row_is_no_hit_witness :
  hits mixed_table = Ok {| columns := metric_columns; rows := [row_10; row_13] |} /\
  cell row_unscored "af2_lddt" = NaN /\
  ~ In row_unscored [row_10; row_13].
Proof.
  split; [reflexivity|]. split; [reflexivity|].
  apply (nan_row_is_no_hit tutorial_predicates mixed_table
           {| columns := metric_columns; rows := [row_10; row_13] |}
           (lddt_above 60) row_unscored).
  - reflexivity.
  - left. reflexivity.
  - reflexivity.
Defined.

(** ** Strings and layouts *)

Section String_facts.

Lemma append_String (c : ascii) (a b : string) :
  String c a +:+ b = String c (a +:+ b).
Proof. reflexivity. Qed.

Lemma append_empty (b : string) : "" +:+ b = b.
Proof. reflexivity. Qed.

Lemma has_char_app (c : ascii) (a b : string) :
  has_char c (a +:+ b) = has_char c a || has_char c b.
Proof.
  induction a as [|c' a IH]; [reflexivity|].
  rewrite append_String. cbn. rewrite IH. apply orb_assoc.
Qed.

Lemma string_forall_has_char (P : ascii -> bool) (c : ascii) (s : string) :
  P c = false -> string_forall P s = true -> has_char c s = false.
Proof.
  intros HP. induction s as [|c' s IH]; cbn; [reflexivity|].
  intros [Hc Hs]%andb_true_iff. rewrite (IH Hs), orb_false_r.
  destruct (Ascii.eqb_spec c' c) as [->|]; [congruence | reflexivity].
Qed.

Lemma string_of_uint_digits (d : Decimal.uint) :
  string_forall digit_or_minus (NilEmpty.string_of_uint d) = true.
Proof. induction d; cbn; auto. Qed.

Lemma str_of_int_chars (n : Z) :
  string_forall digit_or_minus (str_of_int n) = true /\ str_of_int n <> "".
Proof.
  unfold str_of_int, NilZero.string_of_int, NilZero.string_of_uint.
  destruct (Z.to_int n) as [d|d]; split.
  - destruct d; try reflexivity; apply (string_of_uint_digits (_ d)).
  - destruct d; discriminate.
  - cbn. destruct d; try reflexivity; apply (string_of_uint_digits (_ d)).
  - discriminate.
Qed.

Lemma str_of_int_no_comma (n : Z) : has_char "," (str_of_int n) = false.
Proof.
  apply (string_forall_has_char digit_or_minus); [reflexivity|].
  apply str_of_int_chars.
Qed.

Lemma str_of_int_head (n : Z) :
  exists c rest, str_of_int n = String c rest /\ Ascii.eqb c "A" = false.
Proof.
  destruct (str_of_int_chars n) as [Hd Hne].
  destruct (str_of_int n) as [|c rest]; [contradiction|].
  exists c, rest. split; [reflexivity|].
  cbn in Hd. apply andb_true_iff in Hd as [Hc _].
  destruct (Ascii.eqb_spec c "A") as [->|]; [discriminate | reflexivity].
Qed.

Lemma is_letter_not_comma (c : ascii) :
  is_letter c = true -> Ascii.eqb c "," = false.
Proof.
  intros H. destruct (Ascii.eqb_spec c ",") as [->|]; [discriminate | reflexivity].
Qed.

(** Splitting: a piece without the separator is returned whole. *)
Lemma split_on_no_sep (sep : ascii) (x : string) :
  has_char sep x = false -> split_on sep x = (x, []).
Proof.
  induction x as [|c x IH]; cbn; [reflexivity|].
  intros [Hc Hx]%orb_false_iff. rewrite (IH Hx), Hc. reflexivity.
Qed.

Lemma split_on_app (sep : ascii) (x rest : string) :
  has_char sep x = false ->
  split_on sep (x +:+ String sep rest) = (x, str_split rest sep).
Proof.
  unfold str_split. induction x as [|c x IH].
  - intros _. rewrite append_empty. cbn.
    destruct (split_on sep rest). rewrite Ascii.eqb_refl. reflexivity.
  - rewrite append_String. cbn.
    intros [Hc Hx]%orb_false_iff. rewrite (IH Hx), Hc. reflexivity.
Qed.

(** [','.join(segs).split(',') == segs] for pieces without a comma. *)
Lemma str_split_join (segs : list string) :
  segs <> [] ->
  Forall (fun x => has_char "," x = false) segs ->
  str_split (str_join "," segs) "," = segs.
Proof.
  intros Hne H. induction H as [|x l Hx Hl IH]; [contradiction|].
  destruct l as [|y l].
  - cbn. unfold str_split. rewrite split_on_no_sep by exact Hx. reflexivity.
  - change (str_join "," (x :: y :: l))
      with (x +:+ String "," (str_join "," (y :: l))).
    unfold str_split at 1. rewrite split_on_app by exact Hx.
    rewrite IH by discriminate. reflexivity.
Qed.

Lemma keep_A_filter (l : list string) :
  Forall (fun x => x <> "") l ->
  Run2.keep_A l = Ok (List.filter starts_with_A l).
Proof.
  intros H. induction H as [|x l Hx _ IH]; cbn; [reflexivity|].
  destruct x as [|c x]; [contradiction|]. cbn. rewrite IH. reflexivity.
Qed.

Lemma keep_A_empty (l1 l2 : list string) :
  Forall (fun x => x <> "") l1 ->
  Run2.keep_A (l1 ++ "" :: l2) = Raise IndexError.
Proof.
  intros H. induction H as [|x l Hx _ IH]; cbn; [reflexivity|].
  destruct x as [|c x]; [contradiction|]. cbn. rewrite IH. reflexivity.
Qed.

(** Rendered segments. *)
Lemma render_segment_no_comma (s : segment) :
  wf_segment s -> has_char "," (render_segment s) = false.
Proof.
  destruct s as [c lo hi|lo hi|n]; cbn; intros Hwf.
  - rewrite (is_letter_not_comma _ Hwf), !has_char_app, !str_of_int_no_comma.
    reflexivity.
  - rewrite !has_char_app, !str_of_int_no_comma. reflexivity.
  - apply str_of_int_no_comma.
Qed.

Lemma render_segment_head (s : segment) :
  exists c rest,
    render_segment s = String c rest /\ Ascii.eqb c "A" = on_chain "A" s.
Proof.
  destruct s as [c lo hi|lo hi|n]; cbn.
  - eauto.
  - destruct (str_of_int_head lo) as (c & rest & -> & Hc).
    rewrite append_String. eauto.
  - apply str_of_int_head.
Qed.

Lemma render_segment_starts_with_A (s : segment) :
  starts_with_A (render_segment s) = on_chain "A" s.
Proof.
  destruct (render_segment_head s) as (c & rest & -> & Hc). exact Hc.
Qed.

Lemma render_segment_nonempty (s : segment) : render_segment s <> "".
Proof.
  destruct (render_segment_head s) as (c & rest & -> & _). discriminate.
Qed.

Lemma filter_render (l : list segment) :
  List.filter starts_with_A (List.map render_segment l)
  = List.map render_segment (List.filter (on_chain "A") l).
Proof.
  induction l as [|s l IH]; cbn; [reflexivity|].
  rewrite render_segment_starts_with_A.
  destruct (on_chain "A" s); cbn; congruence.
Qed.

Lemma contigs_of_segments (m : string) :
  Forall (fun x => x <> "") (str_split m ",") ->
  Run2.contigs_of m
  = Ok (str_join "," (List.filter starts_with_A (str_split m ","))).
Proof.
  intros H. unfold Run2.contigs_of. rewrite keep_A_filter by exact H. reflexivity.
Qed.

Lemma split_render_layout (l : list segment) :
  l <> [] -> Forall wf_segment l ->
  str_split (render_layout l) "," = List.map render_segment l.
Proof.
  intros Hne Hwf. unfold render_layout. apply str_split_join.
  - destruct l; [contradiction | discriminate].
  - apply List.Forall_map. eapply List.Forall_impl; [|exact Hwf].
    intros s. apply render_segment_no_comma.
Qed.

Lemma contigs_of_layout (l : list segment) :
  l <> [] -> Forall wf_segment l ->
  Run2.contigs_of (render_layout l)
  = Ok (render_layout (List.filter (on_chain "A") l)).
Proof.
  intros Hne Hwf. rewrite contigs_of_segments.
  - rewrite split_render_layout by assumption.
    rewrite filter_render. reflexivity.
  - rewrite split_render_layout by assumption.
    apply List.Forall_map. apply List.Forall_forall.
    intros s _. apply render_segment_nonempty.
Qed.

End String_facts.

(** ** Run 2 *)

Section Run2_facts.

Lemma append_empty_r (s : string) : s +:+ "" = s.
Proof. induction s as [|c s IH]; [reflexivity|]. rewrite append_String, IH. reflexivity. Qed.

Lemma prefix_pdb_app (c : ascii) (s : string) :
  String.prefix ".pdb" (String c (s +:+ ".pdb")) = String.prefix ".pdb" (String c s).
Proof.
  destruct s as [|a [|b [|d rest]]];
    rewrite ?append_String, ?append_empty; cbn [String.prefix];
    repeat (destruct (ascii_dec _ _); subst;
            try discriminate; try reflexivity; cbn [String.prefix]).
  destruct rest; reflexivity.
Qed.

(** Replacing the extension of a file name that has [.pdb] at its end
    only. *)
Lemma str_replace_extension (stem new : string) :
  occurs_in ".pdb" stem = false ->
  str_replace (stem +:+ ".pdb") ".pdb" new = stem +:+ new.
Proof.
  unfold str_replace. induction stem as [|c stem IH].
  - intros _. rewrite !append_empty. cbn. rewrite append_empty_r. reflexivity.
  - intros H. cbn [occurs_in] in H. apply orb_false_iff in H as [Hp Ho].
    rewrite !append_String. cbn [replace_from].
    rewrite prefix_pdb_app, Hp, (IH Ho). reflexivity.
Qed.

Lemma child_spec_ok (k : Run2.knobs) (istart : Z) (fn : string)
    (trb : gmap string string) (m c : string) :
  trb !! "sampled_mask" = Some m ->
  Run2.contigs_of m = Ok c ->
  exists j,
    Run2.child_spec k istart fn trb = Ok j /\
    Run2.js_mask j = m /\
    Run2.js_use_template j = c /\
    Run2.js_spike_fas j = str_replace fn ".pdb" ".fas" /\
    Run2.js_spike j = "0.999" /\
    Run2.js_num j = Run2.batch k /\
    Run2.js_start_num j = istart.
Proof.
  intros Hm Hc. unfold Run2.child_spec, dict_getitem. rewrite Hm. cbn [bind].
  rewrite Hc. cbn [bind]. eexists. split; [reflexivity|]. cbn. auto 10.
Qed.

(** The loop stops at the first iteration that raises. *)
Lemma for_each_abort {A} (body : A -> io unit) (l1 l2 : list A) (x : A)
    (w w1 w2 : world) (e : exn) :
  for_each body l1 w = (Ok tt, w1) ->
  body x w1 = (Raise e, w2) ->
  for_each body (l1 ++ x :: l2) w = (Raise e, w2).
Proof.
  revert w. induction l1 as [|y l1 IH]; intros w; cbn.
  - intros [= <-] Hx. unfold io_bind. rewrite Hx. reflexivity.
  - unfold io_bind. destruct (body y w) as [[[]|e'] w'] eqn:Ey; [|discriminate].
    intros H1 Hx. apply IH; assumption.
Qed.

Lemma copyfile_missing (src dst : string) (w : world) :
  files w !! normpath src = None ->
  copyfile src dst w = (Raise (FileNotFoundError src), w).
Proof. intros H. unfold copyfile. rewrite H. reflexivity. Qed.

Lemma copyfile_ok (src dst : string) (w w' : world) :
  copyfile src dst w = (Ok tt, w') ->
  is_Some (files w' !! normpath dst) /\
  forall p, is_Some (files w !! p) -> is_Some (files w' !! p).
Proof.
  unfold copyfile. destruct (files w !! normpath src) as [a|]; [|discriminate].
  destruct (decide _); [discriminate|]. intros [= <-]. cbn. split.
  - rewrite lookup_insert_eq. eauto.
  - intros p Hp. rewrite lookup_insert. destruct (decide _); eauto.
Qed.


Lemma promote_row_ok (outdir : string) (r : row) (w w' : world) :
  promote_row outdir r w = (Ok tt, w') ->
  is_Some (files w' !! normpath (outdir +:+ name r +:+ ".pdb")) /\
  is_Some (files w' !! normpath (outdir +:+ "af2/" +:+ name r +:+ "_af2pred.pdb")) /\
  is_Some (files w' !! normpath (outdir +:+ name r +:+ ".trb")) /\
  is_Some (files w' !! normpath (outdir +:+ name r +:+ ".fas")).
Proof.
  unfold promote_row, io_bind.
  destruct (copyfile _ _ w) as [[[]|e1] w1] eqn:E1; [|discriminate].
  destruct (copyfile _ _ w1) as [[[]|e2] w2] eqn:E2; [|discriminate].
  destruct (copyfile _ _ w2) as [[[]|e3] w3] eqn:E3; [|discriminate].
  intros E4.
  apply copyfile_ok in E1 as [H1 _]. apply copyfile_ok in E2 as [H2 K2].
  apply copyfile_ok in E3 as [H3 K3]. apply copyfile_ok in E4 as [H4 K4].
  auto 10.
Qed.


Lemma propagate_frame (k : Run2.knobs) (istart : Z) (fn : string) (w : world) :
  exists r lines,
    Run2.propagate k istart fn w = (r, printed w lines) /\
    forall w',
      files w' !! normpath (str_replace fn ".pdb" ".trb")
      = files w !! normpath (str_replace fn ".pdb" ".trb") ->
      Run2.propagate k istart fn w' = (r, printed w' lines).
Proof.
  assert (Hid : forall v, printed v [] = v).
  { intros [f o]. unfold printed. cbn. rewrite app_nil_r. reflexivity. }
  unfold Run2.propagate, io_bind, np_load, io_lift, print.
  destruct (files w !! normpath (str_replace fn ".pdb" ".trb")) as [[c|d]|] eqn:E.
  - exists (Raise (LoadError (str_replace fn ".pdb" ".trb"))), [].
    rewrite Hid. split; [reflexivity|]. intros w' ->. rewrite Hid. reflexivity.
  - destruct (Run2.child_spec k istart fn d) as [j|e] eqn:Ec.
    + exists (Ok tt), [Run2.cmd2 j]. split; [reflexivity|].
      intros w' ->. rewrite Ec. reflexivity.
    + exists (Raise e), []. rewrite Hid. split; [reflexivity|].
      intros w' ->. rewrite Ec, Hid. reflexivity.
  - exists (Raise (FileNotFoundError (str_replace fn ".pdb" ".trb"))), [].
    rewrite Hid. split; [reflexivity|]. intros w' ->. rewrite Hid. reflexivity.
Qed.

End Run2_facts.

Lemma filter_fixed_on_A (l : list segment) :
  Forall (fun s => is_fixed s = true -> on_chain "A" s = true) l ->
  List.filter (on_chain "A") l = List.filter is_fixed l.
Proof.
  intros H. induction H as [|s l Hs _ IH]; cbn; [reflexivity|].
  rewrite IH. destruct s as [c lo hi|lo hi|n]; cbn in *; [|reflexivity..].
  rewrite Hs by reflexivity. reflexivity.
Qed.

(** C2, counterexample: a parent whose realized layout has its fixed
    segment on chain B.  The child keeps the layout, but its template list
    is empty although the layout has the fixed segment [B10-20]. *)
Lemma child_template_counterexample :
  exists j,
    Run2.child_spec (Run2.tutorial_knobs [parent_13]) 0 parent_13 trb_chain_B = Ok j /\
    Run2.js_mask j = "5-5,B10-20,3-3" /\
    Run2.js_use_template j = "" /\
    render_layout (List.filter is_fixed chain_B_layout) = "B10-20" /\
    Run2.js_use_template j <> render_layout (List.filter is_fixed chain_B_layout).
Proof.
  eexists. split; [reflexivity|]. repeat split. discriminate.
Qed.

(** C2, as the code has it: for a parent whose run-metadata records the
    sampled layout [L], the child spec carries that layout verbatim (every
    free segment keeps the length written there), its template list is the
    fixed segments of [L] on chain A, in order (all the fixed segments of
    [L] when they are all on chain A), its seed sequence is the parent's
    file name with [.pdb] replaced by [.fas], at spike 0.999; the sampled
    layout [30,A63-82,21,A119-140,3] gives that same child layout and the
    template list [A63-82,A119-140]. *)
Theorem child_spec_of_layout (k : Run2.knobs) (istart : Z) (fn : string)
    (trb : gmap string string) (L : list segment) :
  L <> [] ->
  Forall wf_segment L ->
  trb !! "sampled_mask" = Some (render_layout L) ->
  exists j,
    Run2.child_spec k istart fn trb = Ok j /\
    Run2.js_mask j = render_layout L /\
    Run2.js_use_template j = render_layout (List.filter (on_chain "A") L) /\
    (Forall (fun s => is_fixed s = true -> on_chain "A" s = true) L ->
     Run2.js_use_template j = render_layout (List.filter is_fixed L)) /\
    Run2.js_spike_fas j = str_replace fn ".pdb" ".fas" /\
    (forall stem, occurs_in ".pdb" stem = false -> fn = stem +:+ ".pdb" ->
                  Run2.js_spike_fas j = stem +:+ ".fas") /\
    Run2.js_spike j = "0.999" /\
    (L = scenario_layout ->
     Run2.js_mask j = "30,A63-82,21,A119-140,3" /\
     Run2.js_use_template j = "A63-82,A119-140").
Proof.
  intros Hne Hwf Hm.
  destruct (child_spec_ok k istart fn trb _ _ Hm (contigs_of_layout L Hne Hwf))
    as (j & Hj & Hmask & Htpl & Hfas & Hspike & _).
  exists j. split; [exact Hj|]. split; [exact Hmask|]. split; [exact Htpl|].
  split; [intros HA; rewrite Htpl, filter_fixed_on_A by exact HA; reflexivity|].
  split; [exact Hfas|].
  split; [intros stem Hs ->; rewrite Hfas; apply str_replace_extension; exact Hs|].
  split; [exact Hspike|].
  intros ->. rewrite Hmask, Htpl. split; reflexivity.
Qed.

Lemma scenario_layout_wf : Forall wf_segment scenario_layout.
Proof. repeat constructor. Defined.

Lemma child_spec_of_layout_witness :
  scenario_layout <> [] /\
  trb_scenario !! "sampled_mask" = Some (render_layout scenario_layout) /\
  exists j,
    Run2.child_spec (Run2.tutorial_knobs [parent_13]) 0 parent_13 trb_scenario = Ok j /\
    Run2.js_mask j = "30,A63-82,21,A119-140,3" /\
    Run2.js_use_template j = "A63-82,A119-140" /\
    Run2.js_spike_fas j = "output/hits_r1/pd1_r1_13.fas".
Proof.
  split; [discriminate|]. split; [reflexivity|].
  destruct (child_spec_of_layout (Run2.tutorial_knobs [parent_13]) 0 parent_13
              trb_scenario scenario_layout)
    as (j & Hj & _ & _ & _ & _ & Hfas & _ & Hex);
    [discriminate | apply scenario_layout_wf | reflexivity |].
  exists j. split; [exact Hj|].
  destruct (Hex eq_refl) as [Hm Ht]. split; [exact Hm|]. split; [exact Ht|].
  apply (Hfas "output/hits_r1/pd1_r1_13"); reflexivity.
Defined.

(** C10: the template list of the child is made of exactly those
    comma-separated segments of the parent's sampled layout that start with
    the letter A, in order; for a layout [L] these are the fixed segments on
    chain A: a fixed segment on another chain is left out, and so is every
    free segment. *)
Theorem use_template_keeps_chain_A (k : Run2.knobs) (istart : Z) (fn : string)
    (trb : gmap string string) (m : string) :
  trb !! "sampled_mask" = Some m ->
  Forall (fun x => x <> "") (str_split m ",") ->
  exists j kept,
    Run2.child_spec k istart fn trb = Ok j /\
    Run2.js_use_template j = str_join "," kept /\
    kept = List.filter starts_with_A (str_split m ",") /\
    (forall L, L <> [] -> Forall wf_segment L -> m = render_layout L ->
       kept = List.map render_segment (List.filter (on_chain "A") L) /\
       forall s, In s L ->
         (In (render_segment s) kept <-> exists lo hi, s = Fixed "A" lo hi)).
Proof.
  intros Hm Hne.
  destruct (child_spec_ok k istart fn trb _ _ Hm (contigs_of_segments m Hne))
    as (j & Hj & _ & Htpl & _).
  exists j, (List.filter starts_with_A (str_split m ",")).
  split; [exact Hj|]. split; [exact Htpl|]. split; [reflexivity|].
  intros L HL Hwf ->. rewrite split_render_layout by assumption.
  split; [apply filter_render|].
  intros s Hs. rewrite filter_In, render_segment_starts_with_A. split.
  - intros [_ HA]. destruct s as [c lo hi|lo hi|n]; cbn in HA; try discriminate.
    apply Ascii.eqb_eq in HA as ->. eauto.
  - intros (lo & hi & ->). split; [|reflexivity].
    apply in_map. exact Hs.
Qed.

Lemma use_template_keeps_chain_A_witness :
  trb_chain_B !! "sampled_mask" = Some "5-5,B10-20,3-3" /\
  Forall (fun x => x <> "") (str_split "5-5,B10-20,3-3" ",") /\
  exists j,
    Run2.child_spec (Run2.tutorial_knobs [parent_13]) 0 parent_13 trb_chain_B = Ok j /\
    Run2.js_use_template j = "".
Proof.
  assert (Hne : Forall (fun x : string => x <> "") (str_split "5-5,B10-20,3-3" ",")).
  { cbn. repeat constructor; discriminate. }
  split; [reflexivity|]. split; [exact Hne|].
  destruct (use_template_keeps_chain_A (Run2.tutorial_knobs [parent_13]) 0 parent_13
              trb_chain_B "5-5,B10-20,3-3" eq_refl Hne)
    as (j & kept & Hj & Htpl & -> & _).
  exists j. split; [exact Hj | exact Htpl].
Defined.

(** C8: the child spec depends on nothing but the parent's metadata (and
    the knobs): in two stores that hold the same run-metadata for the
    parent, the propagator returns the same result and prints the same
    line, byte for byte, and it leaves the files as they are, so that
    running it again prints that line again; within the metadata only the
    sampled layout matters. *)
Theorem propagate_deterministic (k : Run2.knobs) (istart : Z) (fn : string)
    (w1 w2 : world) :
  files w1 !! normpath (str_replace fn ".pdb" ".trb")
  = files w2 !! normpath (str_replace fn ".pdb" ".trb") ->
  exists r lines,
    Run2.propagate k istart fn w1 = (r, printed w1 lines) /\
    Run2.propagate k istart fn w2 = (r, printed w2 lines) /\
    Run2.propagate k istart fn (printed w1 lines)
    = (r, printed (printed w1 lines) lines) /\
    (forall d1 d2 : gmap string string,
       d1 !! "sampled_mask" = d2 !! "sampled_mask" ->
       Run2.child_spec k istart fn d1 = Run2.child_spec k istart fn d2).
Proof.
  intros Hsame.
  destruct (propagate_frame k istart fn w1) as (r & lines & H1 & Hframe).
  exists r, lines. split; [exact H1|].
  split; [apply Hframe; symmetry; exact Hsame|].
  split; [apply Hframe; reflexivity|].
  intros d1 d2 Hd. unfold Run2.child_spec, dict_getitem. rewrite Hd. reflexivity.
Qed.

Lemma propagate_deterministic_witness :
  files hits_world !! normpath (str_replace parent_13 ".pdb" ".trb")
  = files hits_world' !! normpath (str_replace parent_13 ".pdb" ".trb") /\
  exists r lines,
    Run2.propagate (Run2.tutorial_knobs [parent_13]) 0 parent_13 hits_world
    = (r, printed hits_world lines) /\
    Run2.propagate (Run2.tutorial_knobs [parent_13]) 0 parent_13 hits_world'
    = (r, printed hits_world' lines).
Proof.
  split; [reflexivity|].
  destruct (propagate_deterministic (Run2.tutorial_knobs [parent_13]) 0 parent_13
              hits_world hits_world' eq_refl)
    as (r & lines & H1 & H2 & _).
  exists r, lines. split; [exact H1 | exact H2].
Defined.




(** * Further properties of the notebook's code *)

(** ** np.arange and the run-1 loop *)

Section Arange_facts.

Lemma arange_len_floor_neg (start stop step : Z) :
  step < 0 ->
  - ((start - stop) / step) * step <= stop - start
    < (- ((start - stop) / step) - 1) * step.
Proof.
  intros Hstep.
  pose proof (Z.div_mod (start - stop) step ltac:(lia)) as Hdm.
  pose proof (Z.mod_neg_bound (start - stop) step Hstep) as Hr.
  nia.
Qed.

End Arange_facts.

(** X2: a negative batch makes the run-1 loop count downwards and raises
    nothing: no command at all when [total_num >= 0], and for
    [total_num < 0] commands whose start numbers are [0, batch, 2*batch, ...]
    down to above [total_num], each with the negative count [batch]. *)
Theorem run1_negative_batch (i : Run1.intent) :
  Run1.batch i < 0 ->
  exists specs,
    Run1.run1_specs i = Ok specs /\
    (0 <= Run1.total_num i -> specs = []) /\
    (Run1.total_num i < 0 -> specs <> []) /\
    (forall k s, nth_error specs k = Some s ->
       Run1.js_start_num s = Z.of_nat k * Run1.batch i /\
       Run1.total_num i < Run1.js_start_num s <= 0 /\
       Run1.js_num s = Run1.batch i).
Proof.
  intros Hb. exists (Run1.spec_list i).
  split; [apply run1_specs_eq; lia|].
  pose proof (arange_len_floor_neg 0 (Run1.total_num i) (Run1.batch i) Hb) as Hq.
  pose proof (spec_list_length i) as Hlen. unfold arange_len in Hlen.
  set (q := - ((0 - Run1.total_num i) / Run1.batch i)) in *.
  split; [|split].
  - intros Ht. assert (Z.of_nat (length (Run1.spec_list i)) = 0) by nia.
    destruct (Run1.spec_list i); [reflexivity | cbn in *; lia].
  - intros Ht E. rewrite E in Hlen. cbn in Hlen. nia.
  - intros k s Hk. apply spec_list_nth in Hk as [Hlt ->]. cbn.
    split; [reflexivity|]. split; [nia | reflexivity].
Qed.

Lemma run1_negative_batch_witness :
  -5 < 0 /\
  exists specs,
    Run1.run1_specs
      {| Run1.total_num := -7; Run1.batch := -5; Run1.ref_pdb := "input/pd1.pdb";
         Run1.mask := "25-35"; Run1.run_name := "pd1_r1";
         Run1.outdir := "output/run1/" |} = Ok specs /\
    List.map Run1.js_start_num specs = [0; -5].
Proof.
  split; [lia|].
  destruct (run1_negative_batch
              {| Run1.total_num := -7; Run1.batch := -5; Run1.ref_pdb := "input/pd1.pdb";
                 Run1.mask := "25-35"; Run1.run_name := "pd1_r1";
                 Run1.outdir := "output/run1/" |}) as (specs & Hs & _); [cbn; lia|].
  exists specs. split; [exact Hs|].
  vm_compute in Hs. injection Hs as <-. reflexivity.
Defined.

(** ** Names of log files *)

Section Name_facts.

Lemma append_assoc (a b c : string) : (a +:+ b) +:+ c = a +:+ (b +:+ c).
Proof.
  induction a as [|x a IH]; [reflexivity|].
  rewrite !append_String, IH. reflexivity.
Qed.

Lemma length_append (a b : string) :
  String.length (a +:+ b) = (String.length a + String.length b)%nat.
Proof.
  induction a as [|x a IH]; [reflexivity|].
  rewrite append_String. cbn. rewrite IH. reflexivity.
Qed.

Lemma append_inj_l (s a b : string) : s +:+ a = s +:+ b -> a = b.
Proof.
  induction s as [|x s IH]; [auto|].
  rewrite !append_String. intros [= H]. auto.
Qed.

Lemma append_inj_r (a b t : string) : a +:+ t = b +:+ t -> a = b.
Proof.
  revert b. induction a as [|x a IH]; intros [|y b] H.
  - reflexivity.
  - apply (f_equal String.length) in H.
    rewrite ?append_empty, ?append_String in H. cbn in H.
    rewrite length_append in H. lia.
  - apply (f_equal String.length) in H.
    rewrite ?append_empty, ?append_String in H. cbn in H.
    rewrite length_append in H. lia.
  - rewrite !append_String in H. injection H as -> H. f_equal. auto.
Qed.

(** A string is cut at its last occurrence of [c] in one way only. *)
Lemma append_sep_inj (c : ascii) (x y a b : string) :
  has_char c a = false -> has_char c b = false ->
  x +:+ String c a = y +:+ String c b -> x = y /\ a = b.
Proof.
  intros Ha Hb. revert y. induction x as [|d x IH]; intros [|e y] H.
  - rewrite !append_empty in H. injection H as ->. auto.
  - rewrite ?append_empty, ?append_String in H. injection H as -> ->.
    rewrite has_char_app in Ha. cbn in Ha. rewrite Ascii.eqb_refl, orb_true_r in Ha.
    discriminate.
  - rewrite ?append_empty, ?append_String in H. injection H as -> <-.
    rewrite has_char_app in Hb. cbn in Hb. rewrite Ascii.eqb_refl, orb_true_r in Hb.
    discriminate.
  - rewrite !append_String in H. injection H as -> H.
    destruct (IH _ H) as [-> ->]. auto.
Qed.

Lemma to_int_not_nil (z : Z) :
  Z.to_int z <> Decimal.Pos Decimal.Nil /\ Z.to_int z <> Decimal.Neg Decimal.Nil.
Proof.
  pose proof (DecimalZ.to_of (Z.to_int z)) as H. rewrite DecimalZ.of_to in H.
  rewrite H. destruct (Z.to_int z) as [d|d]; cbn.
  - split; [|discriminate]. intros [= E]. exact (DecimalFacts.unorm_nonnil d E).
  - unfold Decimal.norm. destruct (Decimal.nzhead d); split; discriminate.
Qed.

Lemma str_of_int_inj (a b : Z) : str_of_int a = str_of_int b -> a = b.
Proof.
  unfold str_of_int. intros H.
  apply (f_equal NilZero.int_of_string) in H.
  destruct (to_int_not_nil a) as [Ha1 Ha2]. destruct (to_int_not_nil b) as [Hb1 Hb2].
  rewrite !NilZero.isi in H by assumption.
  injection H as H. apply DecimalZ.to_int_inj. exact H.
Qed.

Lemma str_of_int_no_underscore (n : Z) : has_char "_" (str_of_int n) = false.
Proof.
  apply (string_forall_has_char digit_or_minus); [reflexivity|].
  apply str_of_int_chars.
Qed.

End Name_facts.

(** X3: the log file named in a run-1 command determines its start number:
    two iterations of the loop never append to the same log file. *)
Theorem run1_logs_distinct (i : Run1.intent) (specs : list Run1.job_spec) :
  Run1.run1_specs i = Ok specs ->
  (forall k1 k2 s1 s2,
     nth_error specs k1 = Some s1 -> nth_error specs k2 = Some s2 ->
     Run1.js_log s1 = Run1.js_log s2 -> k1 = k2) /\
  List.NoDup (List.map Run1.js_log specs).
Proof.
  intros Hs.
  assert (Hb : Run1.batch i <> 0).
  { intros E. unfold Run1.run1_specs, np_arange in Hs. rewrite E in Hs. discriminate. }
  rewrite run1_specs_eq in Hs by exact Hb. injection Hs as <-.
  assert (Hinj : forall k1 k2 s1 s2,
     nth_error (Run1.spec_list i) k1 = Some s1 ->
     nth_error (Run1.spec_list i) k2 = Some s2 ->
     Run1.js_log s1 = Run1.js_log s2 -> k1 = k2).
  { intros k1 k2 s1 s2 H1 H2 E.
    apply spec_list_nth in H1 as [_ ->]. apply spec_list_nth in H2 as [_ ->].
    cbn in E. rewrite <- !append_assoc in E.
    apply append_inj_r, append_inj_l, str_of_int_inj in E. nia. }
  split; [exact Hinj|].
  apply (proj2 (List.NoDup_nth_error _)). intros k1 k2 Hk1 E.
  rewrite length_map in Hk1. rewrite !nth_error_map in E.
  destruct (nth_error (Run1.spec_list i) k1) as [s1|] eqn:E1;
    [|apply nth_error_None in E1; lia].
  destruct (nth_error (Run1.spec_list i) k2) as [s2|] eqn:E2; [|discriminate].
  cbn in E. injection E as E. eapply Hinj; eassumption.
Qed.

Lemma run1_logs_distinct_witness :
  exists specs,
    Run1.run1_specs Run1.tutorial_intent = Ok specs /\
    List.NoDup (List.map Run1.js_log specs).
Proof.
  eexists. split; [reflexivity|].
  apply (run1_logs_distinct Run1.tutorial_intent). reflexivity.
Defined.

(** ** More on the Hit Selector *)

Section Selector_facts.

Lemma first_missing_none (df : DataFrame) (ps : list predicate) :
  first_missing df ps = None <-> Forall (present df) ps.
Proof.
  induction ps as [|p ps IH]; cbn.
  - split; [constructor | reflexivity].
  - destruct (decide _) as [Hin|Hout].
    + rewrite IH. split; [constructor; assumption | inversion 1; assumption].
    + split; [discriminate | inversion 1; contradiction].
Qed.

Lemma and_masks_missing (df : DataFrame) (ps : list predicate) (acc : list bool)
    (c : string) :
  first_missing df ps = Some c -> and_masks df acc ps = Raise (KeyError c).
Proof.
  revert acc. induction ps as [|p ps IH]; intros acc; cbn; [discriminate|].
  destruct (decide _) as [Hin|Hout].
  - intros H. rewrite pred_mask_ok by exact Hin. cbn. apply IH. exact H.
  - intros [= <-]. unfold pred_mask, getitem_col.
    destruct (decide _); [contradiction | reflexivity].
Qed.

Lemma satisfies_all_app (ps1 ps2 : list predicate) (r : row) :
  satisfies_all (ps1 ++ ps2) r = satisfies_all ps1 r && satisfies_all ps2 r.
Proof. apply forallb_app. Qed.

Lemma satisfies_all_perm (ps ps' : list predicate) (r : row) :
  Permutation ps ps' -> satisfies_all ps r = satisfies_all ps' r.
Proof.
  unfold satisfies_all. induction 1 as [|p l l' _ IH|p q l|l l' l'' _ IH1 _ IH2]; cbn.
  - reflexivity.
  - rewrite IH. reflexivity.
  - rewrite !andb_assoc, (andb_comm (satisfies r q)). reflexivity.
  - congruence.
Qed.

Lemma filter_filter_andb {A} (f g : A -> bool) (l : list A) :
  List.filter g (List.filter f l) = List.filter (fun x => f x && g x) l.
Proof.
  induction l as [|x l IH]; cbn; [reflexivity|].
  destruct (f x); cbn; [destruct (g x)|]; congruence.
Qed.

Lemma filter_map_comm {A B} (g : A -> B) (f : B -> bool) (l : list A) :
  List.filter f (List.map g l) = List.map g (List.filter (fun x => f (g x)) l).
Proof.
  induction l as [|x l IH]; cbn; [reflexivity|].
  destruct (f (g x)); cbn; congruence.
Qed.

Lemma first_missing_app (df : DataFrame) (ps1 ps2 : list predicate) :
  first_missing df ps1 = None ->
  first_missing df (ps1 ++ ps2) = first_missing df ps2.
Proof.
  induction ps1 as [|p ps1 IH]; cbn; [reflexivity|].
  destruct (decide _); [exact IH | discriminate].
Qed.

Lemma first_missing_columns (df df' : DataFrame) (ps : list predicate) :
  columns df' = columns df -> first_missing df' ps = first_missing df ps.
Proof.
  intros E. induction ps as [|p ps IH]; cbn; [reflexivity|].
  rewrite E, IH. reflexivity.
Qed.

End Selector_facts.

(** X4: the Hit Selector in full.  If some predicate compares a column the
    table lacks, the selector raises the [KeyError] of the first such
    predicate in the order written, whatever the rows are; otherwise it
    returns the table with the rows that pass every predicate. *)
Theorem hit_selector_total (ps : list predicate) (df : DataFrame) :
  hit_selector ps df =
  match first_missing df ps with
  | Some c => Raise (KeyError c)
  | None => Ok {| columns := columns df;
                  rows := List.filter (satisfies_all ps) (rows df) |}
  end.
Proof.
  destruct (first_missing df ps) as [c|] eqn:E.
  - destruct ps as [|p ps]; [discriminate|]. cbn in *.
    destruct (decide _) as [Hin|Hout].
    + rewrite pred_mask_ok by exact Hin. cbn.
      rewrite (and_masks_missing _ _ _ _ E). reflexivity.
    + injection E as <-. unfold pred_mask, getitem_col.
      destruct (decide _); [contradiction | reflexivity].
  - apply hit_selector_ok. apply first_missing_none. exact E.
Qed.

(** X5: filtering in stages.  Selecting with [ps2] from the hits of [ps1]
    is selecting with [ps1] and [ps2] at once (the same table, or the same
    [KeyError]); in particular selecting again with the same predicates
    changes nothing. *)
Theorem hit_selector_staged (ps1 ps2 : list predicate) (df mid : DataFrame) :
  hit_selector ps1 df = Ok mid ->
  hit_selector (ps1 ++ ps2) df = hit_selector ps2 mid /\
  hit_selector ps1 mid = Ok mid.
Proof.
  intros H. rewrite hit_selector_total in H.
  destruct (first_missing df ps1) eqn:E1; [discriminate|]. injection H as <-.
  rewrite !hit_selector_total. cbn [columns rows].
  rewrite first_missing_app by exact E1.
  rewrite !(first_missing_columns df {| columns := columns df; rows := _ |})
    by reflexivity.
  rewrite E1. split.
  - destruct (first_missing df ps2); [reflexivity|]. f_equal. f_equal.
    rewrite filter_filter_andb. apply List.filter_ext. intros r.
    apply satisfies_all_app.
  - f_equal. f_equal. rewrite filter_filter_andb. apply List.filter_ext.
    intros r. apply andb_diag.
Qed.

Lemma hit_selector_staged_witness :
  hit_selector [lddt_above 60] mixed_table
  = Ok {| columns := metric_columns; rows := [row_10; row_13] |} /\
  hit_selector ([lddt_above 60] ++ List.tl tutorial_predicates) mixed_table
  = hit_selector (List.tl tutorial_predicates)
      {| columns := metric_columns; rows := [row_10; row_13] |}.
Proof.
  split; [reflexivity|].
  apply (hit_selector_staged [lddt_above 60] (List.tl tutorial_predicates) mixed_table).
  reflexivity.
Defined.

(** X6: the order in which the predicates are written does not matter for
    the result, as long as the table has all their columns. *)
Theorem hit_selector_permutation (ps ps' : list predicate) (df : DataFrame) :
  Permutation ps ps' ->
  Forall (present df) ps ->
  hit_selector ps df = hit_selector ps' df.
Proof.
  intros Hperm Hp.
  assert (Hp' : Forall (present df) ps').
  { apply List.Forall_forall. intros p Hin.
    apply (proj1 (List.Forall_forall _ _) Hp).
    apply (Permutation_in _ (Permutation_sym Hperm) Hin). }
  rewrite !hit_selector_ok by assumption. f_equal. f_equal.
  apply List.filter_ext. intros r. apply satisfies_all_perm. exact Hperm.
Qed.

Lemma hit_selector_permutation_witness :
  Permutation tutorial_predicates (List.rev tutorial_predicates) /\
  Forall (present mixed_table) tutorial_predicates /\
  hit_selector tutorial_predicates mixed_table
  = hit_selector (List.rev tutorial_predicates) mixed_table.
Proof.
  split; [apply Permutation_rev|].
  split; [apply tutorial_predicates_present|].
  apply hit_selector_permutation;
    [apply Permutation_rev | apply tutorial_predicates_present].
Defined.

(** X7: assigning the folder column and selecting commute: the hits of the
    table with its folder set are the hits of the table, with their folder
    set; so every hit carries the folder assigned to the table. *)
Theorem hit_selector_set_folder (f : string) (ps : list predicate) (df : DataFrame) :
  hit_selector ps (set_folder f df)
  = match hit_selector ps df with
    | Ok out => Ok (set_folder f out)
    | Raise e => Raise e
    end /\
  forall out r, hit_selector ps (set_folder f df) = Ok out ->
                In r (rows out) -> folder r = f.
Proof.
  assert (E : hit_selector ps (set_folder f df)
              = match hit_selector ps df with
                | Ok out => Ok (set_folder f out)
                | Raise e => Raise e
                end).
  { rewrite !hit_selector_total.
    rewrite (first_missing_columns df (set_folder f df)) by reflexivity.
    destruct (first_missing df ps); [reflexivity|].
    unfold set_folder. cbn [columns rows]. f_equal. f_equal.
    rewrite filter_map_comm. reflexivity. }
  split; [exact E|].
  intros out r Hout Hr. rewrite E in Hout.
  destruct (hit_selector ps df) as [o|e]; [|discriminate].
  injection Hout as <-. cbn in Hr. apply in_map_iff in Hr as (r' & <- & _).
  reflexivity.
Qed.

(** ** More on the Artifact Promoter *)

Section Promoter_facts.

Lemma copyfile_success (src dst : string) (w : world) (a : artifact) :
  files w !! normpath src = Some a ->
  normpath src <> normpath dst ->
  copyfile src dst w
  = (Ok tt, {| files := <[normpath dst := a]> (files w); stdout := stdout w |}).
Proof.
  intros Hs Hne. unfold copyfile. rewrite Hs.
  destruct (decide _); [contradiction | reflexivity].
Qed.

(** The four inequalities and lookups that [apart] gives for a source. *)
Lemma apart_lookup (outdir : string) (r : row) (s : string)
    (m : gmap string artifact) (d1 : string) (a1 : artifact) :
  apart outdir r -> In s (promote_sources r) -> In d1 (promote_targets outdir r) ->
  <[normpath d1 := a1]> m !! normpath s = m !! normpath s.
Proof.
  intros Hap Hs Hd. apply lookup_insert_ne. intros E.
  apply (Hap s d1 Hs Hd). symmetry. exact E.
Qed.

Lemma promote_row_success (outdir : string) (r : row) (w : world)
    (a1 a2 a3 a4 : artifact) :
  apart outdir r ->
  files w !! normpath (folder r +:+ "/" +:+ name r +:+ ".pdb") = Some a1 ->
  files w !! normpath (folder r +:+ "af2/" +:+ name r +:+ ".pdb") = Some a2 ->
  files w !! normpath (folder r +:+ "../" +:+ name r +:+ ".trb") = Some a3 ->
  files w !! normpath (folder r +:+ "../" +:+ name r +:+ ".fas") = Some a4 ->
  promote_row outdir r w
  = (Ok tt,
     {| files :=
          <[normpath (outdir +:+ name r +:+ ".fas") := a4]>
            (<[normpath (outdir +:+ name r +:+ ".trb") := a3]>
               (<[normpath (outdir +:+ "af2/" +:+ name r +:+ "_af2pred.pdb") := a2]>
                  (<[normpath (outdir +:+ name r +:+ ".pdb") := a1]> (files w))));
        stdout := stdout w |}).
Proof.
  intros Hap H1 H2 H3 H4. unfold promote_row, io_bind.
  assert (Hne : forall s d, In s (promote_sources r) ->
                            In d (promote_targets outdir r) ->
                            normpath s <> normpath d) by exact Hap.
  rewrite (copyfile_success _ _ _ a1 H1) by (apply Hne; cbn; auto 6).
  rewrite (copyfile_success _ _ _ a2).
  2:{ cbn [files]. rewrite (apart_lookup outdir r) by (try exact Hap; cbn; auto 6).
      exact H2. }
  2:{ apply Hne; cbn; auto 6. }
  rewrite (copyfile_success _ _ _ a3).
  2:{ cbn [files]. rewrite !(apart_lookup outdir r) by (try exact Hap; cbn; auto 6).
      exact H3. }
  2:{ apply Hne; cbn; auto 6. }
  rewrite (copyfile_success _ _ _ a4).
  2:{ cbn [files]. rewrite !(apart_lookup outdir r) by (try exact Hap; cbn; auto 6).
      exact H4. }
  2:{ apply Hne; cbn; auto 6. }
  reflexivity.
Qed.

Lemma copyfile_inv (src dst : string) (w w' : world) :
  copyfile src dst w = (Ok tt, w') ->
  exists a, files w !! normpath src = Some a /\
            w' = {| files := <[normpath dst := a]> (files w); stdout := stdout w |}.
Proof.
  unfold copyfile. destruct (files w !! normpath src) as [a|]; [|discriminate].
  destruct (decide _); [discriminate|]. intros [= <-]. eauto.
Qed.

Lemma nodup4 {A} (a b c d : A) :
  List.NoDup [a; b; c; d] ->
  a <> b /\ a <> c /\ a <> d /\ b <> c /\ b <> d /\ c <> d.
Proof.
  intros H. inversion H as [|? ? Ha H1]; subst.
  inversion H1 as [|? ? Hb H2]; subst. inversion H2 as [|? ? Hc H3]; subst.
  cbn in *. intuition congruence.
Qed.

(** [promote_row] is the loop of its four copies. *)
Lemma promote_row_loop (outdir : string) (r : row) (w : world) :
  promote_row outdir r w
  = for_each copy_pair (zip (promote_sources r) (promote_targets outdir r)) w.
Proof.
  unfold promote_row, promote_sources, promote_targets, copy_pair. cbn.
  unfold io_bind, io_ret.
  destruct (copyfile _ _ w) as [[[]|?] w1]; [|reflexivity].
  destruct (copyfile _ _ w1) as [[[]|?] w2]; [|reflexivity].
  destruct (copyfile _ _ w2) as [[[]|?] w3]; [|reflexivity].
  destruct (copyfile _ _ w3) as [[[]|?] w4]; reflexivity.
Qed.

(** A loop of copies whose sources are all present and never written. *)
Lemma copy_loop_ok (pairs : list (string * string)) (w : world) :
  (forall p q, In p pairs -> In q pairs -> normpath (fst p) <> normpath (snd q)) ->
  Forall (fun p => is_Some (files w !! normpath (fst p))) pairs ->
  exists w',
    for_each copy_pair pairs w = (Ok tt, w') /\
    stdout w' = stdout w /\
    Forall (fun p => is_Some (files w' !! normpath (snd p))) pairs /\
    (forall q, ~ In q (List.map (fun p => normpath (snd p)) pairs) ->
               files w' !! q = files w !! q).
Proof.
  revert w. induction pairs as [|[s d] pairs IH]; intros w Hap Hex.
  - exists w. cbn. repeat split; auto.
  - inversion Hex as [|? ? [a Ha] Hrest]; subst. cbn in Ha.
    cbn [for_each]. unfold io_bind, copy_pair at 1. cbn [fst snd].
    rewrite (copyfile_success s d w a Ha) by (apply (Hap (s, d) (s, d)); left; reflexivity).
    set (w1 := {| files := <[normpath d := a]> (files w); stdout := stdout w |}).
    destruct (IH w1) as (w' & Hrun & Hout & Htgt & Hframe).
    + intros p q Hp Hq. apply Hap; right; assumption.
    + apply List.Forall_forall. intros p Hp. cbn [w1 files].
      rewrite lookup_insert_ne.
      * apply (proj1 (List.Forall_forall _ _) Hrest p Hp).
      * intros E. apply (Hap p (s, d)); [right; exact Hp | left; reflexivity |].
        symmetry. exact E.
    + exists w'. split; [exact Hrun|]. split; [exact Hout|]. split.
      * constructor; [|exact Htgt]. cbn [snd].
        destruct (in_dec string_dec (normpath d)
                    (List.map (fun p => normpath (snd p)) pairs)) as [Hin|Hnin].
        -- apply in_map_iff in Hin as (p & Hp & Hin). rewrite <- Hp.
           apply (proj1 (List.Forall_forall _ _) Htgt p Hin).
        -- rewrite (Hframe _ Hnin). cbn [w1 files]. rewrite lookup_insert_eq. eauto.
      * intros q Hq. cbn in Hq. rewrite Hframe by tauto.
        cbn [w1 files]. apply lookup_insert_ne. tauto.
Qed.

End Promoter_facts.

Lemma promote_row_inv (outdir : string) (r : row) (w w' : world) :
  apart outdir r ->
  promote_row outdir r w = (Ok tt, w') ->
  exists a1 a2 a3 a4,
    files w !! normpath (folder r +:+ "/" +:+ name r +:+ ".pdb") = Some a1 /\
    files w !! normpath (folder r +:+ "af2/" +:+ name r +:+ ".pdb") = Some a2 /\
    files w !! normpath (folder r +:+ "../" +:+ name r +:+ ".trb") = Some a3 /\
    files w !! normpath (folder r +:+ "../" +:+ name r +:+ ".fas") = Some a4.
Proof.
  intros Hap. unfold promote_row, io_bind.
  destruct (copyfile _ _ w) as [[[]|?] w1] eqn:E1; [|discriminate].
  destruct (copyfile _ _ w1) as [[[]|?] w2] eqn:E2; [|discriminate].
  destruct (copyfile _ _ w2) as [[[]|?] w3] eqn:E3; [|discriminate].
  intros E4.
  apply copyfile_inv in E1 as (a1 & H1 & ->).
  apply copyfile_inv in E2 as (a2 & H2 & ->).
  apply copyfile_inv in E3 as (a3 & H3 & ->).
  apply copyfile_inv in E4 as (a4 & H4 & _).
  cbn [files] in H2, H3, H4.
  rewrite !(apart_lookup outdir r) in H2 by (try exact Hap; cbn; auto 6).
  rewrite !(apart_lookup outdir r) in H3 by (try exact Hap; cbn; auto 6).
  rewrite !(apart_lookup outdir r) in H4 by (try exact Hap; cbn; auto 6).
  exists a1, a2, a3, a4. auto.
Qed.

Lemma copy_loop_inv (pairs : list (string * string)) (w w' : world) :
  (forall p q, In p pairs -> In q pairs -> normpath (fst p) <> normpath (snd q)) ->
  for_each copy_pair pairs w = (Ok tt, w') ->
  Forall (fun p => is_Some (files w !! normpath (fst p))) pairs.
Proof.
  revert w. induction pairs as [|[s d] pairs IH]; intros w Hap; [constructor|].
  cbn [for_each]. unfold io_bind, copy_pair at 1. cbn [fst snd].
  destruct (copyfile s d w) as [[[]|?] w1] eqn:E1; [|discriminate].
  intros Hrest. apply copyfile_inv in E1 as (a & Ha & ->).
  constructor; [cbn; eauto|].
  assert (IHw : Forall (fun p => is_Some
                  (<[normpath d := a]> (files w) !! normpath (fst p))) pairs).
  { apply (IH _ (fun p q Hp Hq => Hap p q (or_intror Hp) (or_intror Hq)) Hrest). }
  apply List.Forall_forall. intros p Hp.
  pose proof (proj1 (List.Forall_forall _ _) IHw p Hp) as Hs. cbn beta in Hs.
  rewrite lookup_insert_ne in Hs; [exact Hs|].
  intros E. apply (Hap p (s, d)); [right; exact Hp | left; reflexivity |].
  symmetry. exact E.
Qed.

(** X8: what a promotion that succeeded has done, when the files read are
    apart from the files written: the four sources were there, each of the
    four targets holds what its source holds, and nothing else has
    changed: the sources stay as they are, no other file is touched,
    nothing is printed. *)
Theorem promote_row_copies (outdir : string) (r : row) (w w' : world) :
  apart outdir r ->
  List.NoDup (List.map normpath (promote_targets outdir r)) ->
  promote_row outdir r w = (Ok tt, w') ->
  stdout w' = stdout w /\
  Forall (fun s => is_Some (files w !! normpath s)) (promote_sources r) /\
  files w' !! normpath (outdir +:+ name r +:+ ".pdb")
  = files w !! normpath (folder r +:+ "/" +:+ name r +:+ ".pdb") /\
  files w' !! normpath (outdir +:+ "af2/" +:+ name r +:+ "_af2pred.pdb")
  = files w !! normpath (folder r +:+ "af2/" +:+ name r +:+ ".pdb") /\
  files w' !! normpath (outdir +:+ name r +:+ ".trb")
  = files w !! normpath (folder r +:+ "../" +:+ name r +:+ ".trb") /\
  files w' !! normpath (outdir +:+ name r +:+ ".fas")
  = files w !! normpath (folder r +:+ "../" +:+ name r +:+ ".fas") /\
  (forall s, In s (promote_sources r) ->
             files w' !! normpath s = files w !! normpath s) /\
  (forall p, ~ In p (List.map normpath (promote_targets outdir r)) ->
             files w' !! p = files w !! p).
Proof.
  intros Hap Hnd Hrun.
  destruct (promote_row_inv outdir r w w' Hap Hrun)
    as (a1 & a2 & a3 & a4 & H1 & H2 & H3 & H4).
  rewrite (promote_row_success outdir r w a1 a2 a3 a4 Hap H1 H2 H3 H4) in Hrun.
  injection Hrun as <-. cbn [files stdout]. cbn in Hnd.
  apply nodup4 in Hnd as (N12 & N13 & N14 & N23 & N24 & N34).
  split; [reflexivity|].
  split; [unfold promote_sources; repeat constructor; eauto|].
  rewrite H1, H2, H3, H4.
  split; [rewrite !lookup_insert_ne by congruence; apply lookup_insert_eq|].
  split; [rewrite !lookup_insert_ne by congruence; apply lookup_insert_eq|].
  split; [rewrite !lookup_insert_ne by congruence; apply lookup_insert_eq|].
  split; [apply lookup_insert_eq|].
  split.
  - intros s Hs. rewrite !(apart_lookup outdir r) by (try exact Hap; cbn; auto 6).
    reflexivity.
  - intros p Hp. cbn in Hp. rewrite !lookup_insert_ne by tauto. reflexivity.
Qed.

Lemma row_13_apart : apart hits_dir row_13.
Proof.
  intros s d Hs Hd. cbn in Hs, Hd.
  destruct Hs as [<-|[<-|[<-|[<-|[]]]]];
    destruct Hd as [<-|[<-|[<-|[<-|[]]]]]; vm_compute; discriminate.
Defined.

Lemma row_13_targets_nodup :
  List.NoDup (List.map normpath (promote_targets hits_dir row_13)).
Proof.
  vm_compute. repeat constructor; cbn; intuition discriminate.
Defined.

Lemma promote_row_succeeds_13 :
  fst (promote_row hits_dir row_13 run1_world) = Ok tt.
Proof. vm_compute. reflexivity. Defined.

Lemma promote_row_copies_witness :
  exists w',
    promote_row hits_dir row_13 run1_world = (Ok tt, w') /\
    files w' !! "output/hits_r1/pd1_r1_13.trb" = Some (Trb trb_13) /\
    files w' !! "output/run1/pd1_r1_13.trb" = Some (Trb trb_13).
Proof.
  destruct (promote_row hits_dir row_13 run1_world) as [res w'] eqn:E.
  pose proof promote_row_succeeds_13 as Hres. rewrite E in Hres. cbn in Hres.
  subst res. exists w'. split; [reflexivity|].
  destruct (promote_row_copies hits_dir row_13 run1_world w'
              row_13_apart row_13_targets_nodup E)
    as (_ & _ & _ & _ & Htrb & _ & Hsrc & _).
  split.
  - exact Htrb.
  - exact (Hsrc "output/run1/trf_relax/../pd1_r1_13.trb"
             ltac:(right; right; left; reflexivity)).
Defined.

(** X9: promoting one hit stops at the first file that is missing.  When
    the files read are apart from the files written and the copies before
    the missing file have succeeded, the exception names the missing file,
    those earlier copies stay made (the hits directory is left with a part
    of the design), and nothing but their targets has changed. *)
Theorem promote_row_stops_at_missing (outdir : string) (r : row) (w w1 : world)
    (done rest : list (string * string)) (s d : string) :
  apart outdir r ->
  zip (promote_sources r) (promote_targets outdir r) = done ++ (s, d) :: rest ->
  for_each copy_pair done w = (Ok tt, w1) ->
  files w !! normpath s = None ->
  promote_row outdir r w = (Raise (FileNotFoundError s), w1) /\
  Forall (fun p => is_Some (files w1 !! normpath (snd p))) done /\
  (forall q, ~ In q (List.map (fun p => normpath (snd p)) done) ->
             files w1 !! q = files w !! q).
Proof.
  intros Hap Hzip Hdone Hmiss.
  assert (Hin : forall p, In p (done ++ (s, d) :: rest) ->
                          In (fst p) (promote_sources r) /\
                          In (snd p) (promote_targets outdir r)).
  { rewrite <- Hzip. intros [s' d'] Hp. cbn in Hp. cbn [fst snd].
    destruct Hp as [[= <- <-]|[[= <- <-]|[[= <- <-]|[[= <- <-]|[]]]]]; cbn; auto 6. }
  assert (Hap' : forall p q, In p done -> In q done ->
                             normpath (fst p) <> normpath (snd q)).
  { intros p q Hp Hq. apply Hap.
    - apply (Hin p). apply in_or_app. auto.
    - apply (Hin q). apply in_or_app. auto. }
  pose proof (copy_loop_inv done w w1 Hap' Hdone) as Hsrc.
  destruct (copy_loop_ok done w Hap' Hsrc) as (w2 & Hrun & _ & Htgt & Hframe).
  rewrite Hdone in Hrun. injection Hrun as <-.
  split; [|split; assumption].
  rewrite promote_row_loop, Hzip.
  apply (for_each_abort copy_pair done rest (s, d) w w1 w1); [exact Hdone|].
  unfold copy_pair. cbn [fst snd]. apply copyfile_missing.
  destruct (in_dec string_dec (normpath s)
              (List.map (fun p => normpath (snd p)) done)) as [Hi|Hn].
  - exfalso. apply in_map_iff in Hi as (q & Hq & Hqin).
    apply (Hap s (snd q)).
    + apply (Hin (s, d)). apply in_or_app. right. left. reflexivity.
    + apply (Hin q). apply in_or_app. auto.
    + symmetry. exact Hq.
  - rewrite (Hframe _ Hn). exact Hmiss.
Qed.

(** The store of run 1 without the AF2 prediction of [pd1_r1_13]. *)
Lemma promote_row_stops_at_missing_witness :
  let w := {| files := delete "output/run1/trf_relax/af2/pd1_r1_13.pdb" run1_store;
              stdout := [] |} in
  exists w1,
    promote_row hits_dir row_13 w
    = (Raise (FileNotFoundError "output/run1/trf_relax/af2/pd1_r1_13.pdb"), w1) /\
    is_Some (files w1 !! "output/hits_r1/pd1_r1_13.pdb") /\
    files w1 !! "output/hits_r1/pd1_r1_13.trb" = None.
Proof.
  intros w.
  destruct (for_each copy_pair
              [("output/run1/trf_relax//pd1_r1_13.pdb", "output/hits_r1/pd1_r1_13.pdb")] w)
    as [res w1] eqn:E.
  assert (Hres : res = Ok tt).
  { apply (f_equal fst) in E. vm_compute in E. symmetry. exact E. }
  subst res.
  destruct (promote_row_stops_at_missing hits_dir row_13 w w1
              [("output/run1/trf_relax//pd1_r1_13.pdb", "output/hits_r1/pd1_r1_13.pdb")]
              [("output/run1/trf_relax/../pd1_r1_13.trb", "output/hits_r1/pd1_r1_13.trb");
               ("output/run1/trf_relax/../pd1_r1_13.fas", "output/hits_r1/pd1_r1_13.fas")]
              "output/run1/trf_relax/af2/pd1_r1_13.pdb"
              "output/hits_r1/af2/pd1_r1_13_af2pred.pdb")
    as (Hrun & Htgt & Hframe).
  - exact row_13_apart.
  - reflexivity.
  - exact E.
  - reflexivity.
  - exists w1. split; [exact Hrun|]. split.
    + inversion Htgt as [|? ? H _]; subst. exact H.
    + rewrite Hframe; [reflexivity|]. vm_compute. intuition discriminate.
Defined.

(** X10: promoting a hit a second time changes nothing: when the files
    read are apart from the files written, a promotion that succeeded
    succeeds again and leaves the store exactly as it is. *)
Theorem promote_row_idempotent (outdir : string) (r : row) (w w' : world) :
  apart outdir r ->
  promote_row outdir r w = (Ok tt, w') ->
  promote_row outdir r w' = (Ok tt, w').
Proof.
  intros Hap Hrun.
  destruct (promote_row_inv outdir r w w' Hap Hrun) as (a1 & a2 & a3 & a4 & H1 & H2 & H3 & H4).
  rewrite (promote_row_success outdir r w a1 a2 a3 a4 Hap H1 H2 H3 H4) in Hrun.
  injection Hrun as <-.
  rewrite (promote_row_success outdir r _ a1 a2 a3 a4 Hap).
  - f_equal. cbn [files stdout]. f_equal. apply map_eq. intros p.
    rewrite !lookup_insert. repeat case_decide; reflexivity.
  - cbn [files]. rewrite !(apart_lookup outdir r) by (try exact Hap; cbn; auto 6). exact H1.
  - cbn [files]. rewrite !(apart_lookup outdir r) by (try exact Hap; cbn; auto 6). exact H2.
  - cbn [files]. rewrite !(apart_lookup outdir r) by (try exact Hap; cbn; auto 6). exact H3.
  - cbn [files]. rewrite !(apart_lookup outdir r) by (try exact Hap; cbn; auto 6). exact H4.
Qed.

Lemma promote_row_idempotent_witness :
  exists w',
    promote_row hits_dir row_13 run1_world = (Ok tt, w') /\
    promote_row hits_dir row_13 w' = (Ok tt, w').
Proof.
  destruct (promote_row hits_dir row_13 run1_world) as [res w'] eqn:E.
  assert (Hres : res = Ok tt).
  { apply (f_equal fst) in E. vm_compute in E. symmetry. exact E. }
  subst res. exists w'. split; [reflexivity|].
  apply (promote_row_idempotent hits_dir row_13 run1_world w' row_13_apart E).
Defined.

(** X11: promotion feeds propagation.  After a hit has been promoted into
    a directory, propagating from its promoted structure
    [outdir + name + '.pdb'] reads the run-metadata that run 1 wrote for
    that design, and the seed sequence of the child is the promoted [.fas],
    which holds the sequence that run 1 wrote. *)
Theorem promote_then_propagate (k : Run2.knobs) (istart : Z) (outdir : string)
    (r : row) (w w' : world) (d : gmap string string) :
  apart outdir r ->
  List.NoDup (List.map normpath (promote_targets outdir r)) ->
  occurs_in ".pdb" (outdir +:+ name r) = false ->
  promote_row outdir r w = (Ok tt, w') ->
  files w !! normpath (folder r +:+ "../" +:+ name r +:+ ".trb") = Some (Trb d) ->
  Run2.propagate k istart (outdir +:+ name r +:+ ".pdb") w'
  = match Run2.child_spec k istart (outdir +:+ name r +:+ ".pdb") d with
    | Ok j => (Ok tt, printed w' [Run2.cmd2 j])
    | Raise e => (Raise e, w')
    end /\
  (forall j, Run2.child_spec k istart (outdir +:+ name r +:+ ".pdb") d = Ok j ->
     Run2.js_spike_fas j = outdir +:+ name r +:+ ".fas" /\
     is_Some (files w' !! normpath (Run2.js_spike_fas j)) /\
     files w' !! normpath (Run2.js_spike_fas j)
     = files w !! normpath (folder r +:+ "../" +:+ name r +:+ ".fas")).
Proof.
  intros Hap Hnd Hocc Hrun H3.
  destruct (promote_row_copies outdir r w w' Hap Hnd Hrun)
    as (_ & Hsrc & _ & _ & Htrb & Hfas & _).
  rewrite H3 in Htrb.
  assert (Hext : forall new, str_replace (outdir +:+ name r +:+ ".pdb") ".pdb" new
                             = outdir +:+ name r +:+ new).
  { intros new. rewrite <- !append_assoc. apply str_replace_extension. exact Hocc. }
  split.
  - unfold Run2.propagate, io_bind, np_load, io_lift. rewrite Hext, Htrb.
    destruct (Run2.child_spec _ _ _ d); reflexivity.
  - intros j Hj. unfold Run2.child_spec in Hj.
    destruct (dict_getitem d "sampled_mask") as [m|]; [|discriminate]. cbn [bind] in Hj.
    destruct (Run2.contigs_of m) as [c|]; [|discriminate]. cbn [bind] in Hj.
    injection Hj as <-. cbn [Run2.js_spike_fas]. rewrite Hext.
    split; [reflexivity|]. split; [|exact Hfas]. rewrite Hfas.
    apply (proj1 (List.Forall_forall _ _) Hsrc). cbn. auto 6.
Qed.

Lemma promote_then_propagate_witness :
  exists w',
    promote_row hits_dir row_13 run1_world = (Ok tt, w') /\
    exists line,
      Run2.propagate (Run2.tutorial_knobs [parent_13]) 0
        (hits_dir +:+ name row_13 +:+ ".pdb") w'
      = (Ok tt, printed w' [line]).
Proof.
  destruct (promote_row hits_dir row_13 run1_world) as [res w'] eqn:E.
  pose proof promote_row_succeeds_13 as Hres. rewrite E in Hres. cbn in Hres.
  subst res. exists w'. split; [reflexivity|].
  destruct (promote_then_propagate (Run2.tutorial_knobs [parent_13]) 0 hits_dir row_13
              run1_world w' trb_13 row_13_apart row_13_targets_nodup
              eq_refl E eq_refl) as (Hprop & _).
  eexists. rewrite Hprop. reflexivity.
Defined.

(** ** More on the run-2 loop *)

Section Run2_loop_facts.

Lemma printed_nil (w : world) : printed w [] = w.
Proof. destruct w as [f o]. unfold printed. cbn. rewrite app_nil_r. reflexivity. Qed.

Lemma printed_printed (w : world) (a b : list string) :
  printed (printed w a) b = printed w (a ++ b).
Proof. unfold printed. cbn. rewrite app_assoc. reflexivity. Qed.

(** A loop whose body only prints only prints. *)
Lemma for_each_prints {A} (body : A -> io unit) (l : list A) :
  (forall x w, exists r lines, body x w = (r, printed w lines)) ->
  forall w, exists r lines, for_each body l w = (r, printed w lines).
Proof.
  intros Hbody. induction l as [|x l IH]; intros w; cbn.
  - exists (Ok tt), []. rewrite printed_nil. reflexivity.
  - unfold io_bind. destruct (Hbody x w) as (r & lines & ->).
    destruct r as [[]|e].
    + destruct (IH (printed w lines)) as (r' & lines' & ->).
      exists r', (lines ++ lines'). rewrite printed_printed. reflexivity.
    + exists (Raise e), lines. reflexivity.
Qed.

Lemma propagate_prints (k : Run2.knobs) (istart : Z) (fn : string) (w : world) :
  exists r lines, Run2.propagate k istart fn w = (r, printed w lines).
Proof.
  destruct (propagate_frame k istart fn w) as (r & lines & H & _). eauto.
Qed.

Lemma propagate_usable (k : Run2.knobs) (istart : Z) (fn : string) (w : world)
    (before : list string) :
  usable_parent w fn ->
  Run2.propagate k istart fn (printed w before)
  = (Ok tt, printed (printed w before) [command_for k w istart fn]).
Proof.
  intros (d & m & _ & Hd & Hm & Hne).
  destruct (child_spec_ok k istart fn d _ _ Hm (contigs_of_segments m Hne))
    as (j & Hj & _).
  unfold Run2.propagate, io_bind, np_load, io_lift, command_for.
  cbn [printed files]. rewrite Hd, Hj. reflexivity.
Qed.

Lemma inner_loop_usable (k : Run2.knobs) (istart : Z) (parents : list string)
    (w : world) (before : list string) :
  Forall (usable_parent w) parents ->
  for_each (Run2.propagate k istart) parents (printed w before)
  = (Ok tt, printed w (before ++ List.map (command_for k w istart) parents)).
Proof.
  intros H. revert before. induction H as [|fn parents Hfn _ IH]; intros before.
  - cbn. rewrite app_nil_r. reflexivity.
  - cbn [for_each]. unfold io_bind. rewrite (propagate_usable _ _ _ _ _ Hfn).
    rewrite printed_printed, IH, <- app_assoc. reflexivity.
Qed.

Lemma outer_loop_usable (k : Run2.knobs) (istarts : list Z) (w : world)
    (before : list string) :
  Forall (usable_parent w) (Run2.parent_designs k) ->
  for_each (fun istart => for_each (Run2.propagate k istart) (Run2.parent_designs k))
    istarts (printed w before)
  = (Ok tt,
     printed w (before ++
       List.flat_map (fun istart =>
         List.map (command_for k w istart) (Run2.parent_designs k)) istarts)).
Proof.
  intros H. revert before. induction istarts as [|i istarts IH]; intros before.
  - cbn. rewrite app_nil_r. reflexivity.
  - cbn [for_each List.flat_map]. unfold io_bind.
    rewrite (inner_loop_usable _ _ _ _ _ H), IH, <- app_assoc. reflexivity.
Qed.

Lemma flat_map_nil {A B} (f : A -> list B) (l : list A) :
  (forall x, f x = []) -> List.flat_map f l = [].
Proof.
  intros H. induction l as [|x l IH]; [reflexivity|].
  cbn [List.flat_map]. rewrite H, IH. reflexivity.
Qed.

End Run2_loop_facts.

(** X12: the run-2 cell never writes a file and never takes back what was
    printed: whether it ends normally or with an exception, the store after
    it is the store before it with some lines printed after the earlier
    ones. *)
Theorem run2_only_prints (k : Run2.knobs) (w : world) :
  exists r lines, Run2.run2 k w = (r, printed w lines).
Proof.
  unfold Run2.run2, io_bind, io_lift.
  destruct (np_arange 0 (Run2.total_num k) (Run2.batch k)) as [istarts|e].
  - apply for_each_prints. intros istart w'.
    apply for_each_prints. intros fn w''. apply propagate_prints.
  - exists (Raise e), []. rewrite printed_nil. reflexivity.
Qed.

(** X13: when every parent has usable run-metadata (and the counts are
    integers that a float64 holds exactly), the run-2 cell ends normally and
    prints, for each start number of [np.arange] in turn, one command per
    parent in the order of the parent list; with no parent at all it prints
    nothing. *)
Theorem run2_prints_batch_by_batch (k : Run2.knobs) (w : world) :
  Run2.batch k <> 0 ->
  float_exact (Run2.total_num k) -> float_exact (Run2.batch k) ->
  Forall (usable_parent w) (Run2.parent_designs k) ->
  exists istarts,
    np_arange 0 (Run2.total_num k) (Run2.batch k) = Ok istarts /\
    Run2.run2 k w
    = (Ok tt,
       printed w
         (List.flat_map (fun istart =>
            List.map (command_for k w istart) (Run2.parent_designs k)) istarts)) /\
    (forall istart fn, In fn (Run2.parent_designs k) ->
       Run2.propagate k istart fn w = (Ok tt, printed w [command_for k w istart fn])) /\
    (Run2.parent_designs k = [] -> Run2.run2 k w = (Ok tt, w)).
Proof.
  intros Hb _ _ Hus.
  assert (Hrun : forall istarts,
            np_arange 0 (Run2.total_num k) (Run2.batch k) = Ok istarts ->
            Run2.run2 k w
            = (Ok tt,
               printed w
                 (List.flat_map (fun istart =>
                    List.map (command_for k w istart) (Run2.parent_designs k))
                    istarts))).
  { intros istarts Ha. unfold Run2.run2, io_bind, io_lift. rewrite Ha.
    rewrite <- (printed_nil w) at 1. rewrite (outer_loop_usable _ _ _ _ Hus).
    reflexivity. }
  unfold np_arange in *. destruct (Z.eqb_spec (Run2.batch k) 0) as [|_]; [contradiction|].
  eexists. split; [reflexivity|]. split; [apply Hrun; reflexivity|]. split.
  - intros istart fn Hfn.
    rewrite <- (printed_nil w) at 1. rewrite propagate_usable, printed_nil; [reflexivity|].
    apply (proj1 (List.Forall_forall _ _) Hus fn Hfn).
  - intros E. rewrite (Hrun _ eq_refl), E.
    rewrite flat_map_nil by reflexivity. rewrite printed_nil. reflexivity.
Qed.

Lemma parent_13_usable : usable_parent hits_world parent_13.
Proof.
  exists trb_13, "27-27,A63-82,21-21,A119-140,3-3".
  split; [reflexivity|]. split; [reflexivity|]. split; [reflexivity|].
  cbn. repeat constructor; discriminate.
Defined.

Lemma run2_prints_batch_by_batch_witness :
  Run2.batch (Run2.tutorial_knobs [parent_13]) <> 0 /\
  float_exact (Run2.total_num (Run2.tutorial_knobs [parent_13])) /\
  float_exact (Run2.batch (Run2.tutorial_knobs [parent_13])) /\
  Forall (usable_parent hits_world) [parent_13] /\
  exists lines,
    Run2.run2 (Run2.tutorial_knobs [parent_13]) hits_world
    = (Ok tt, printed hits_world lines) /\
    length lines = 2%nat.
Proof.
  assert (Hb : Run2.batch (Run2.tutorial_knobs [parent_13]) <> 0) by discriminate.
  assert (Hus : Forall (usable_parent hits_world) [parent_13])
    by (constructor; [exact parent_13_usable | constructor]).
  assert (H10 : float_exact 10) by (unfold float_exact; lia).
  assert (H5 : float_exact 5) by (unfold float_exact; lia).
  split; [exact Hb|]. split; [exact H10|]. split; [exact H5|]. split; [exact Hus|].
  destruct (run2_prints_batch_by_batch (Run2.tutorial_knobs [parent_13]) hits_world
              Hb H10 H5 Hus)
    as (istarts & Ha & Hrun & _).
  eexists. split; [exact Hrun|].
  vm_compute in Ha. injection Ha as <-. reflexivity.
Defined.

(** ** Names and error cases of the propagator *)

Section Child_facts.

Lemma split_on_tail (sep : ascii) (dir nm : string) :
  has_char sep nm = false ->
  snd (split_on sep (dir +:+ String sep nm)) <> [] /\
  List.last (snd (split_on sep (dir +:+ String sep nm))) "" = nm.
Proof.
  intros Hnm. induction dir as [|c dir [IHne IHlast]].
  - rewrite append_empty. cbn. rewrite (split_on_no_sep _ _ Hnm), Ascii.eqb_refl.
    cbn. split; [discriminate | reflexivity].
  - rewrite append_String. cbn.
    destruct (split_on sep (dir +:+ String sep nm)) as [x xs] eqn:E. cbn in IHne, IHlast.
    destruct (Ascii.eqb c sep); cbn [snd].
    + split; [discriminate|]. destruct xs; [contradiction | exact IHlast].
    + split; assumption.
Qed.

(** [os.path.basename(dir + '/' + nm) == nm] for a name without a slash. *)
Lemma basename_app (dir nm : string) :
  has_char "/" nm = false -> basename (dir +:+ String "/" nm) = nm.
Proof.
  intros Hnm. destruct (split_on_tail "/" dir nm Hnm) as [Hne Hlast].
  unfold basename, str_split.
  destruct (split_on "/" (dir +:+ String "/" nm)) as [x xs]. cbn in Hne, Hlast.
  destruct xs; [contradiction | exact Hlast].
Qed.

(** A string without the pattern is left as it is. *)
Lemma str_replace_absent (s old new : string) :
  occurs_in old s = false -> str_replace s old new = s.
Proof.
  unfold str_replace. induction s as [|c s IH]; [reflexivity|].
  cbn [occurs_in replace_from]. intros [Hp Ho]%orb_false_iff.
  rewrite Hp, (IH Ho). reflexivity.
Qed.

Lemma in_empty_split (l : list string) :
  In "" l -> exists l1 l2, l = l1 ++ "" :: l2 /\ Forall (fun x => x <> "") l1.
Proof.
  induction l as [|x l IH]; [intros []|].
  destruct (string_dec x "") as [->|Hx].
  - intros _. exists [], l. split; [reflexivity | constructor].
  - intros [E|Hin]; [congruence|].
    destruct (IH Hin) as (l1 & l2 & -> & Hl1).
    exists (x :: l1), l2. split; [reflexivity | constructor; assumption].
Qed.

(** [sep.join(s.split(sep)) == s] *)
Lemma str_join_split_on (sep : ascii) (s : string) :
  str_join (String sep "") (fst (split_on sep s) :: snd (split_on sep s)) = s.
Proof.
  induction s as [|c s IH]; [reflexivity|].
  cbn [split_on]. destruct (split_on sep s) as [x xs]. cbn [fst snd] in IH.
  destruct (Ascii.eqb_spec c sep) as [->|Hc]; cbn [fst snd].
  - change (str_join (String sep "") ("" :: x :: xs))
      with ("" +:+ String sep "" +:+ str_join (String sep "") (x :: xs)).
    rewrite IH. reflexivity.
  - destruct xs as [|y ys].
    + cbn in *. rewrite IH. reflexivity.
    + change (str_join (String sep "") (String c x :: y :: ys))
        with (String c x +:+ String sep "" +:+ str_join (String sep "") (y :: ys)).
      change (str_join (String sep "") (x :: y :: ys))
        with (x +:+ String sep "" +:+ str_join (String sep "") (y :: ys)) in IH.
      rewrite append_String, IH. reflexivity.
Qed.

End Child_facts.

(** X14: the names of a child.  For a parent [dir/nm.pdb] (no slash in
    [nm], no other [.pdb] in the path) the child's output prefix is
    [outdir + nm + '_' + run], its log is that prefix followed by
    ['_' + str(istart) + '.log'], and its seed sequence is [dir/nm.fas]. *)
Theorem child_names (k : Run2.knobs) (istart : Z) (dir nm : string)
    (trb : gmap string string) (j : Run2.job_spec) :
  has_char "/" nm = false ->
  occurs_in ".pdb" (dir +:+ "/" +:+ nm) = false ->
  Run2.child_spec k istart (dir +:+ "/" +:+ nm +:+ ".pdb") trb = Ok j ->
  Run2.js_out j = Run2.outdir k +:+ nm +:+ "_" +:+ Run2.run k /\
  Run2.js_log j
  = Run2.outdir k +:+ nm +:+ "_" +:+ Run2.run k +:+ "_" +:+ str_of_int istart +:+ ".log" /\
  Run2.js_spike_fas j = dir +:+ "/" +:+ nm +:+ ".fas".
Proof.
  intros Hnm Hocc Hj.
  assert (Hext : forall new, str_replace (dir +:+ "/" +:+ nm +:+ ".pdb") ".pdb" new
                             = dir +:+ "/" +:+ nm +:+ new).
  { intros new.
    replace (dir +:+ "/" +:+ nm +:+ ".pdb") with ((dir +:+ "/" +:+ nm) +:+ ".pdb")
      by (rewrite !append_assoc; reflexivity).
    replace (dir +:+ "/" +:+ nm +:+ new) with ((dir +:+ "/" +:+ nm) +:+ new)
      by (rewrite !append_assoc; reflexivity).
    apply str_replace_extension. exact Hocc. }
  assert (Hbase : basename (str_replace (dir +:+ "/" +:+ nm +:+ ".pdb") ".pdb" "") = nm).
  { rewrite Hext, append_empty_r. apply (basename_app dir nm Hnm). }
  unfold Run2.child_spec in Hj.
  destruct (dict_getitem trb "sampled_mask") as [m|]; [|discriminate]. cbn [bind] in Hj.
  destruct (Run2.contigs_of m) as [c|]; [|discriminate]. cbn [bind] in Hj.
  injection Hj as <-. cbn [Run2.js_out Run2.js_log Run2.js_spike_fas].
  rewrite Hbase, Hext. rewrite !append_assoc. auto.
Qed.

Lemma child_names_witness :
  exists j,
    Run2.child_spec (Run2.tutorial_knobs [parent_13]) 5
      ("output/hits_r1" +:+ "/" +:+ "pd1_r1_13" +:+ ".pdb") trb_13 = Ok j /\
    Run2.js_out j = "output/run2/pd1_r1_13_r2" /\
    Run2.js_log j = "output/run2/pd1_r1_13_r2_5.log".
Proof.
  eexists. split; [reflexivity|].
  destruct (child_names (Run2.tutorial_knobs [parent_13]) 5 "output/hits_r1" "pd1_r1_13"
              trb_13 _ eq_refl eq_refl eq_refl) as (Hout & Hlog & _).
  split; [exact Hout | exact Hlog].
Defined.

(** X15: the log file and the output prefix of a run-2 command determine
    the parent's name and the start number: two commands of the cell share
    a log file only if they are for parents of the same base name and for
    the same start number. *)
Theorem run2_log_determines (k : Run2.knobs) (i1 i2 : Z) (fn1 fn2 : string)
    (d1 d2 : gmap string string) (j1 j2 : Run2.job_spec) :
  Run2.child_spec k i1 fn1 d1 = Ok j1 ->
  Run2.child_spec k i2 fn2 d2 = Ok j2 ->
  (Run2.js_log j1 = Run2.js_log j2 ->
   basename (str_replace fn1 ".pdb" "") = basename (str_replace fn2 ".pdb" "") /\
   i1 = i2) /\
  (Run2.js_out j1 = Run2.js_out j2 ->
   basename (str_replace fn1 ".pdb" "") = basename (str_replace fn2 ".pdb" "")).
Proof.
  intros H1 H2. unfold Run2.child_spec in H1, H2.
  destruct (dict_getitem d1 "sampled_mask") as [m1|]; [|discriminate]. cbn [bind] in H1.
  destruct (Run2.contigs_of m1) as [c1|]; [|discriminate]. cbn [bind] in H1.
  destruct (dict_getitem d2 "sampled_mask") as [m2|]; [|discriminate]. cbn [bind] in H2.
  destruct (Run2.contigs_of m2) as [c2|]; [|discriminate]. cbn [bind] in H2.
  injection H1 as <-. injection H2 as <-. cbn [Run2.js_log Run2.js_out].
  set (n1 := basename (str_replace fn1 ".pdb" "")).
  set (n2 := basename (str_replace fn2 ".pdb" "")).
  split.
  - intros E. apply append_inj_l in E.
    apply (append_sep_inj "_" (n1 +:+ "_" +:+ Run2.run k) (n2 +:+ "_" +:+ Run2.run k)
             (str_of_int i1 +:+ ".log") (str_of_int i2 +:+ ".log")) in E.
    + destruct E as [En Ei]. apply append_inj_r in En, Ei.
      split; [exact En | apply str_of_int_inj; exact Ei].
    + rewrite has_char_app, str_of_int_no_underscore. reflexivity.
    + rewrite has_char_app, str_of_int_no_underscore. reflexivity.
  - intros E. apply append_inj_l in E. apply append_inj_r in E. exact E.
Qed.

Lemma run2_log_determines_witness :
  exists j1 j2,
    Run2.child_spec (Run2.tutorial_knobs [parent_10; parent_13]) 0 parent_13 trb_13 = Ok j1 /\
    Run2.child_spec (Run2.tutorial_knobs [parent_10; parent_13]) 5 parent_13 trb_13 = Ok j2 /\
    Run2.js_log j1 <> Run2.js_log j2.
Proof.
  do 2 eexists. split; [reflexivity|]. split; [reflexivity|].
  intros E.
  destruct (run2_log_determines (Run2.tutorial_knobs [parent_10; parent_13]) 0 5
              parent_13 parent_13 trb_13 trb_13 _ _ eq_refl eq_refl) as [Hlog _].
  destruct (Hlog E) as [_ Hi]. discriminate.
Defined.

(** X16: a parent file name that does not contain [.pdb] (the pattern
    [*pdb] of the cell admits such names) is left unchanged by both
    replacements: the propagator then tries to load the structure file
    itself as run-metadata and raises, and the seed sequence of a child
    spec built from it would be the structure file. *)
Theorem parent_without_extension (k : Run2.knobs) (istart : Z) (fn : string) :
  occurs_in ".pdb" fn = false ->
  (forall (w : world) (c : string),
     files w !! normpath fn = Some (Data c) ->
     Run2.propagate k istart fn w = (Raise (LoadError fn), w)) /\
  (forall (w : world),
     files w !! normpath fn = None ->
     Run2.propagate k istart fn w = (Raise (FileNotFoundError fn), w)) /\
  (forall (trb : gmap string string) (j : Run2.job_spec),
     Run2.child_spec k istart fn trb = Ok j ->
     Run2.js_spike_fas j = fn /\
     Run2.js_out j = Run2.outdir k +:+ basename fn +:+ "_" +:+ Run2.run k).
Proof.
  intros Hocc.
  assert (Hid : forall new, str_replace fn ".pdb" new = fn)
    by (intros new; apply str_replace_absent; exact Hocc).
  split; [|split].
  - intros w c Hf. unfold Run2.propagate, io_bind, np_load. rewrite Hid, Hf. reflexivity.
  - intros w Hf. unfold Run2.propagate, io_bind, np_load. rewrite Hid, Hf. reflexivity.
  - intros trb j Hj. unfold Run2.child_spec in Hj.
    destruct (dict_getitem trb "sampled_mask") as [m|]; [|discriminate]. cbn [bind] in Hj.
    destruct (Run2.contigs_of m) as [c|]; [|discriminate]. cbn [bind] in Hj.
    injection Hj as <-. cbn [Run2.js_spike_fas Run2.js_out]. rewrite !Hid. auto.
Qed.

Lemma parent_without_extension_witness :
  occurs_in ".pdb" "output/hits_r1/notes_pdb" = false /\
  Run2.propagate (Run2.tutorial_knobs ["output/hits_r1/notes_pdb"]) 0
    "output/hits_r1/notes_pdb"
    {| files := <["output/hits_r1/notes_pdb" := Data "not a structure"]> ∅;
       stdout := [] |}
  = (Raise (LoadError "output/hits_r1/notes_pdb"),
     {| files := <["output/hits_r1/notes_pdb" := Data "not a structure"]> ∅;
        stdout := [] |}).
Proof.
  split; [reflexivity|].
  apply (proj1 (parent_without_extension
                  (Run2.tutorial_knobs ["output/hits_r1/notes_pdb"]) 0
                  "output/hits_r1/notes_pdb" eq_refl)
           _ "not a structure").
  reflexivity.
Defined.

(** X17: a sampled layout with an empty piece (the empty string, a comma at
    either end, two commas in a row) makes the propagator raise
    [IndexError] for that parent, before anything is printed for it. *)
Theorem empty_segment_raises (k : Run2.knobs) (istart : Z) (fn : string)
    (w : world) (d : gmap string string) (m : string) :
  files w !! normpath (str_replace fn ".pdb" ".trb") = Some (Trb d) ->
  d !! "sampled_mask" = Some m ->
  In "" (str_split m ",") ->
  Run2.child_spec k istart fn d = Raise IndexError /\
  Run2.propagate k istart fn w = (Raise IndexError, w).
Proof.
  intros Hf Hm Hin.
  assert (Hc : Run2.child_spec k istart fn d = Raise IndexError).
  { unfold Run2.child_spec, dict_getitem. rewrite Hm. cbn [bind].
    unfold Run2.contigs_of.
    destruct (in_empty_split _ Hin) as (l1 & l2 & -> & Hl1).
    rewrite (keep_A_empty l1 l2 Hl1). reflexivity. }
  split; [exact Hc|].
  unfold Run2.propagate, io_bind, np_load, io_lift. rewrite Hf, Hc. reflexivity.
Qed.

Lemma empty_segment_raises_witness :
  In "" (str_split "27-27,A63-82," ",") /\
  Run2.child_spec (Run2.tutorial_knobs [parent_13]) 0 parent_13
    (<["sampled_mask" := "27-27,A63-82,"]> ∅) = Raise IndexError.
Proof.
  assert (Hin : In "" (str_split "27-27,A63-82," ",")) by (cbn; auto).
  split; [exact Hin|].
  apply (empty_segment_raises (Run2.tutorial_knobs [parent_13]) 0 parent_13
           {| files := <["output/hits_r1/pd1_r1_13.trb" :=
                           Trb (<["sampled_mask" := "27-27,A63-82,"]> ∅)]> ∅;
              stdout := [] |}
           (<["sampled_mask" := "27-27,A63-82,"]> ∅) "27-27,A63-82,");
    [reflexivity | reflexivity | exact Hin].
Defined.

(** X18: splitting at commas and joining with commas are inverse to each
    other: [','.join(s.split(','))] is [s] for every string, and
    [','.join(l).split(',')] is [l] for every non-empty list of pieces
    without a comma; so a sampled layout all of whose pieces start with [A]
    is its own template list. *)
Theorem split_join_round_trip :
  (forall s, str_join "," (str_split s ",") = s) /\
  (forall l, l <> [] -> Forall (fun x => has_char "," x = false) l ->
             str_split (str_join "," l) "," = l) /\
  (forall m, Forall (fun x => starts_with_A x = true) (str_split m ",") ->
             Run2.contigs_of m = Ok m).
Proof.
  assert (Hjs : forall s, str_join "," (str_split s ",") = s).
  { intros s. pose proof (str_join_split_on "," s) as H. unfold str_split.
    destruct (split_on "," s). exact H. }
  split; [exact Hjs|]. split; [exact str_split_join|].
  intros m HA. rewrite contigs_of_segments.
  - assert (E : List.filter starts_with_A (str_split m ",") = str_split m ",").
    { induction HA as [|x l Hx _ IH]; cbn; [reflexivity|]. rewrite Hx, IH. reflexivity. }
    rewrite E, Hjs. reflexivity.
  - eapply List.Forall_impl; [|exact HA]. intros x Hx ->. discriminate.
Qed.

Lemma split_join_round_trip_witness :
  Forall (fun x => starts_with_A x = true) (str_split "A63-82,A119-140" ",") /\
  Run2.contigs_of "A63-82,A119-140" = Ok "A63-82,A119-140".
Proof.
  assert (H : Forall (fun x => starts_with_A x = true) (str_split "A63-82,A119-140" ","))
    by (cbn; repeat constructor).
  split; [exact H|].
  destruct split_join_round_trip as (_ & _ & Hc). apply Hc. exact H.
Defined.

(** ** The promotion of a whole table *)

Section Promote_table_facts.

Lemma copyfile_grows (src dst : string) (w w' : world) (res : result unit) :
  copyfile src dst w = (res, w') ->
  stdout w' = stdout w /\
  forall p, is_Some (files w !! p) -> is_Some (files w' !! p).
Proof.
  unfold copyfile. destruct (files w !! normpath src) as [a|].
  - destruct (decide _); intros [= _ <-]; cbn; [auto|].
    split; [reflexivity|]. intros p Hp. rewrite lookup_insert.
    destruct (decide _); eauto.
  - intros [= _ <-]. auto.
Qed.

Lemma promote_row_grows (outdir : string) (r : row) (w w' : world) (res : result unit) :
  promote_row outdir r w = (res, w') ->
  stdout w' = stdout w /\
  forall p, is_Some (files w !! p) -> is_Some (files w' !! p).
Proof.
  unfold promote_row, io_bind.
  destruct (copyfile _ _ w) as [[[]|?] w1] eqn:E1;
    [|intros [= _ <-]; exact (copyfile_grows _ _ _ _ _ E1)].
  destruct (copyfile _ _ w1) as [[[]|?] w2] eqn:E2.
  2:{ intros [= _ <-]. apply copyfile_grows in E1 as [O1 G1].
      apply copyfile_grows in E2 as [O2 G2]. split; [congruence | auto]. }
  destruct (copyfile _ _ w2) as [[[]|?] w3] eqn:E3.
  2:{ intros [= _ <-]. apply copyfile_grows in E1 as [O1 G1].
      apply copyfile_grows in E2 as [O2 G2]. apply copyfile_grows in E3 as [O3 G3].
      split; [congruence | auto]. }
  intros E4. apply copyfile_grows in E1 as [O1 G1].
  apply copyfile_grows in E2 as [O2 G2]. apply copyfile_grows in E3 as [O3 G3].
  apply copyfile_grows in E4 as [O4 G4]. split; [congruence | auto].
Qed.

Lemma promote_rows_grow (outdir : string) (l : list row) (w w' : world)
    (res : result unit) :
  for_each (promote_row outdir) l w = (res, w') ->
  stdout w' = stdout w /\
  (forall p, is_Some (files w !! p) -> is_Some (files w' !! p)) /\
  (res = Ok tt ->
   forall r, In r l ->
     Forall (fun d => is_Some (files w' !! normpath d)) (promote_targets outdir r)).
Proof.
  revert w. induction l as [|r l IH]; intros w; cbn [for_each].
  - intros [= <- <-]. split; [reflexivity|]. split; [auto|]. intros _ r [].
  - unfold io_bind. destruct (promote_row outdir r w) as [[[]|e] w1] eqn:E1.
    + intros Hrest. destruct (promote_row_grows _ _ _ _ _ E1) as [O1 G1].
      destruct (IH _ Hrest) as (O2 & G2 & T2).
      split; [congruence|]. split; [auto|].
      intros Hok r' [<-|Hin]; [|apply T2; assumption].
      destruct (promote_row_ok _ _ _ _ E1) as (T1 & T1' & T1'' & T1''').
      unfold promote_targets. repeat constructor; apply G2; assumption.
    + intros [= <- <-]. destruct (promote_row_grows _ _ _ _ _ E1) as [O1 G1].
      split; [exact O1|]. split; [exact G1 | discriminate].
Qed.

End Promote_table_facts.

(** X19: the promotion of a table never removes a file and prints nothing,
    however it ends; and when it ends normally every hit of the table has
    its four files in the hits directory. *)
Theorem promote_keeps_files (outdir : string) (hits : DataFrame) (w w' : world)
    (res : result unit) :
  promote outdir hits w = (res, w') ->
  stdout w' = stdout w /\
  (forall p, is_Some (files w !! p) -> is_Some (files w' !! p)) /\
  (res = Ok tt ->
   forall r, In r (rows hits) ->
     Forall (fun d => is_Some (files w' !! normpath d)) (promote_targets outdir r)).
Proof. unfold promote. apply promote_rows_grow. Qed.

Lemma promote_keeps_files_witness :
  exists w',
    promote hits_dir {| columns := metric_columns; rows := [row_13] |} run1_world
    = (Ok tt, w') /\
    is_Some (files w' !! "output/run1/pd1_r1_13.fas") /\
    is_Some (files w' !! "output/hits_r1/pd1_r1_13.fas").
Proof.
  destruct (promote hits_dir {| columns := metric_columns; rows := [row_13] |} run1_world)
    as [res w'] eqn:E.
  assert (Hres : res = Ok tt).
  { apply (f_equal fst) in E. vm_compute in E. symmetry. exact E. }
  subst res. exists w'. split; [reflexivity|].
  destruct (promote_keeps_files _ _ _ _ _ E) as (_ & Hgrow & Htgt).
  split.
  - apply Hgrow. vm_compute. eauto.
  - specialize (Htgt eq_refl row_13 ltac:(left; reflexivity)).
    inversion Htgt as [|? ? _ H2]; subst. inversion H2 as [|? ? _ H3]; subst.
    inversion H3 as [|? ? _ H4]; subst. inversion H4 as [|? ? H _]; subst.
    exact H.
Defined.

(** X20: the comparisons of the filter are strict: a row whose cell equals
    the threshold of some predicate is not a hit, whichever way the
    predicate compares. *)
Theorem threshold_itself_is_no_hit (ps : list predicate) (df out : DataFrame)
    (p : predicate) (r : row) (q : Q) :
  hit_selector ps df = Ok out ->
  In p ps ->
  cell r (p_col p) = Finite q ->
  (q == p_thr p)%Q ->
  ~ In r (rows out).
Proof.
  intros Hout Hp Hcell Hq Hin.
  pose proof (hit_selector_present _ _ _ Hout) as Hpres.
  rewrite hit_selector_ok in Hout by exact Hpres. injection Hout as <-.
  cbn in Hin. apply filter_In in Hin as [_ Hs].
  unfold satisfies_all in Hs. rewrite forallb_forall in Hs.
  specialize (Hs p Hp). unfold satisfies in Hs. rewrite Hcell in Hs.
  destruct (p_cmp p); cbn in Hs; apply Qltb_lt in Hs; rewrite Hq in Hs;
    exact (Qlt_irrefl _ Hs).
Qed.

Lemma threshold_itself_is_no_hit_witness :
  let r := mk_row 3 "pd1_r1_2" (Finite 60) (Finite 1) (Finite 10) in
  exists out,
    hits {| columns := metric_columns; rows := [r; row_10] |} = Ok out /\
    ~ In r (rows out).
Proof.
  intros r. eexists. split; [reflexivity|].
  apply (threshold_itself_is_no_hit tutorial_predicates
           {| columns := metric_columns; rows := [r; row_10] |} _
           (lddt_above 60) r 60).
  - reflexivity.
  - left. reflexivity.
  - reflexivity.
  - reflexivity.
Defined.

Lemma hit_selector_set_folder_witness :
  exists out,
    hit_selector tutorial_predicates (set_folder "output/run1/trf_relax/" mixed_table)
    = Ok out /\
    Forall (fun r => folder r = "output/run1/trf_relax/") (rows out).
Proof.
  eexists. split; [reflexivity|].
  apply List.Forall_forall. intros r Hr.
  apply (proj2 (hit_selector_set_folder "output/run1/trf_relax/" tutorial_predicates
                  mixed_table) _ r eq_refl Hr).
Defined.
